(** * Footprint estimation engine of the electronic-use carbon survey

    A shallow embedding of the three variants of the survey's estimation
    engine (the [results] memo and [kgToInr] of [src/App.js], first and
    second component, and of the Indian-defaults component), written
    after the JavaScript sources, followed by the functions around it:
    [getCityState], [generateParticipantId], [downloadJSON] and
    [handleSubmit].

    Numbers.  A JavaScript number is modelled as an exact rational, with
    [NaN] as the one special value (it is what [Number(..)] yields on an
    unreadable field, and every such reading in the sources is followed
    by [|| 0]).  Binary rounding error, overflow and the infinities of
    IEEE-754 are outside this model; the literal [Infinity] is read as
    [NaN] here.  The amounts computed here are those of exact
    arithmetic: where an unrounded amount lies within a rounding error
    of a tie, the last digit that [round] returns on doubles can differ
    from the one computed here.

    Strings are byte strings, read as UTF-8. *)

From Stdlib Require Import QArith Qround Lqa ZArith Lia List Bool Ascii String.
From stdpp Require Import gmap strings pretty.

Local Open Scope Q_scope.

(** ** JavaScript values and coercions *)

Inductive number : Type :=
  | Finite (q : Q)
  | NaN.

Inductive JsVal : Type :=
  | JUndefined
  | JBool (b : bool)
  | JNum (n : number)
  | JStr (s : string).

(** A survey response: a flat object; reading a missing property gives
    [undefined]. *)
Definition field (form : gmap string JsVal) (k : string) : JsVal :=
  default JUndefined (form !! k).

Definition Qltb (x y : Q) : bool := (Qnum x * QDen y <? Qnum y * QDen x)%Z.
Definition Qeqb (x y : Q) : bool := Qeq_bool x y.

(** [ToBoolean]. *)
Definition truthy (v : JsVal) : bool :=
  match v with
  | JUndefined => false
  | JBool b => b
  | JNum (Finite q) => negb (Qeqb q 0)
  | JNum NaN => false
  | JStr s => negb (String.eqb s "")
  end.

(** *** [Number(string)]: the [StringToNumber] grammar *)

(** White space of one byte: TAB, LF, VT, FF, CR and the space. *)
Definition is_ws (c : ascii) : bool :=
  let n := nat_of_ascii c in
  (Nat.eqb n 9 || Nat.eqb n 10 || Nat.eqb n 11 || Nat.eqb n 12
   || Nat.eqb n 13 || Nat.eqb n 32)%bool.

(** White space of two bytes: U+00A0 (C2 A0). *)
Definition is_ws2 (c1 c2 : ascii) : bool :=
  (Nat.eqb (nat_of_ascii c1) 194 && Nat.eqb (nat_of_ascii c2) 160)%bool.

(** White space of three bytes, as lead byte, second byte and the range
    of the third: U+1680, U+2000 to U+200A, U+2028, U+2029, U+202F,
    U+205F, U+3000 and U+FEFF. *)
Definition ws3_table : list (nat * nat * nat * nat) :=
  [ (225, 154, 128, 128); (226, 128, 128, 138); (226, 128, 168, 169);
    (226, 128, 175, 175); (226, 129, 159, 159); (227, 128, 128, 128);
    (239, 187, 191, 191) ]%nat.

Definition is_ws3 (c1 c2 c3 : ascii) : bool :=
  existsb (fun '(a, b, lo, hi) =>
             (Nat.eqb (nat_of_ascii c1) a && Nat.eqb (nat_of_ascii c2) b
              && Nat.leb lo (nat_of_ascii c3)
              && Nat.leb (nat_of_ascii c3) hi)%bool) ws3_table.

(** Does the text begin with a white-space character; [ends_ws] asks the
    same of the end of a text given last byte first. *)
Definition starts_ws (l : list ascii) : bool :=
  match l with
  | c1 :: r1 =>
      (is_ws c1
       || match r1 with
          | c2 :: r2 =>
              is_ws2 c1 c2
              || match r2 with
                 | c3 :: _ => is_ws3 c1 c2 c3
                 | [] => false
                 end
          | [] => false
          end)%bool
  | [] => false
  end.

Definition ends_ws (l : list ascii) : bool :=
  match l with
  | c1 :: r1 =>
      (is_ws c1
       || match r1 with
          | c2 :: r2 =>
              is_ws2 c2 c1
              || match r2 with
                 | c3 :: _ => is_ws3 c3 c2 c1
                 | [] => false
                 end
          | [] => false
          end)%bool
  | [] => false
  end.

(** Removes the white space at the start of a text. *)
Fixpoint drop_ws (l : list ascii) : list ascii :=
  match l with
  | c1 :: r1 =>
      if is_ws c1 then drop_ws r1
      else
        match r1 with
        | c2 :: r2 =>
            if is_ws2 c1 c2 then drop_ws r2
            else
              match r2 with
              | c3 :: r3 => if is_ws3 c1 c2 c3 then drop_ws r3 else l
              | [] => l
              end
        | [] => l
        end
  | [] => []
  end.

(** The same from the end, on the text given last byte first. *)
Fixpoint drop_ws_end (l : list ascii) : list ascii :=
  match l with
  | c1 :: r1 =>
      if is_ws c1 then drop_ws_end r1
      else
        match r1 with
        | c2 :: r2 =>
            if is_ws2 c2 c1 then drop_ws_end r2
            else
              match r2 with
              | c3 :: r3 => if is_ws3 c3 c2 c1 then drop_ws_end r3 else l
              | [] => l
              end
        | [] => l
        end
  | [] => []
  end.

(** [String.prototype.trim], and the [StrWhiteSpace] that [Number]
    skips: the white space and line terminators of ECMAScript, on the
    UTF-8 bytes of the text. *)
Definition trim (l : list ascii) : list ascii :=
  rev (drop_ws_end (rev (drop_ws l))).

Definition digit_val (base : Z) (c : ascii) : option Z :=
  let n := Z.of_nat (nat_of_ascii c) in
  let d := if (48 <=? n)%Z && (n <=? 57)%Z then Some (n - 48)%Z
           else if (97 <=? n)%Z && (n <=? 102)%Z then Some (n - 87)%Z
           else if (65 <=? n)%Z && (n <=? 70)%Z then Some (n - 55)%Z
           else None in
  match d with
  | Some v => if (v <? base)%Z then Some v else None
  | None => None
  end.

(** Reads the longest run of digits of [base]: value so far, number of
    digits read, and the rest. *)
Fixpoint read_digits (base : Z) (l : list ascii) (acc : Z) (n : nat)
  : Z * nat * list ascii :=
  match l with
  | c :: r =>
      match digit_val base c with
      | Some d => read_digits base r (acc * base + d)%Z (S n)
      | None => (acc, n, l)
      end
  | [] => (acc, n, [])
  end.

Definition pow10 (e : Z) : Q :=
  if (0 <=? e)%Z then inject_Z (10 ^ e) else / inject_Z (10 ^ (- e)).

Definition read_sign (l : list ascii) : bool * list ascii :=
  match l with
  | "-"%char :: r => (true, r)
  | "+"%char :: r => (false, r)
  | _ => (false, l)
  end.

(** [ExponentPart], which must reach the end of the literal. *)
Definition read_exponent (l : list ascii) : option Z :=
  match l with
  | [] => Some 0%Z
  | c :: r =>
      if (Ascii.eqb c "e" || Ascii.eqb c "E")%bool then
        let '(neg, r1) := read_sign r in
        match read_digits 10 r1 0 0 with
        | (_, O, _) => None
        | (e, _, []) => Some (if neg then (- e)%Z else e)
        | _ => None
        end
      else None
  end.

(** [StrUnsignedDecimalLiteral] without the [Infinity] alternative. *)
Definition read_decimal (l : list ascii) : option Q :=
  let '(ip, ni, r1) := read_digits 10 l 0 0 in
  let '(fp, nf, r2) :=
    match r1 with
    | "."%char :: r => read_digits 10 r 0 0
    | _ => (0%Z, O, r1)
    end in
  let dotted := match r1 with "."%char :: _ => true | _ => false end in
  if (Nat.eqb (ni + nf) 0 : bool) then None
  else if (negb dotted && negb (Nat.eqb nf 0))%bool then None
  else
    match read_exponent r2 with
    | Some e =>
        Some ((inject_Z ip + inject_Z fp * pow10 (- Z.of_nat nf)) * pow10 e)
    | None => None
    end.

Definition read_radix (base : Z) (l : list ascii) : option Q :=
  match read_digits base l 0 0 with
  | (_, O, _) => None
  | (v, _, []) => Some (inject_Z v)
  | _ => None
  end.

Definition StringToNumber (s : string) : number :=
  let l := trim (list_ascii_of_string s) in
  match l with
  | [] => Finite 0
  | "0"%char :: c :: r =>
      if (Ascii.eqb c "x" || Ascii.eqb c "X")%bool then
        match read_radix 16 r with Some q => Finite q | None => NaN end
      else if (Ascii.eqb c "o" || Ascii.eqb c "O")%bool then
        match read_radix 8 r with Some q => Finite q | None => NaN end
      else if (Ascii.eqb c "b" || Ascii.eqb c "B")%bool then
        match read_radix 2 r with Some q => Finite q | None => NaN end
      else
        match read_decimal l with Some q => Finite q | None => NaN end
  | _ =>
      let '(neg, r) := read_sign l in
      match read_decimal r with
      | Some q => Finite (if neg then - q else q)
      | None => NaN
      end
  end.

(** [Number(v)] on the primitive values. *)
Definition Number (v : JsVal) : number :=
  match v with
  | JUndefined => NaN
  | JBool b => Finite (if b then 1 else 0)
  | JNum n => n
  | JStr s => StringToNumber s
  end.

(** The idiom [n || 0] on a number: [NaN] and zero give 0. *)
Definition orZero (n : number) : Q :=
  match n with
  | Finite q => q
  | NaN => 0
  end.

(** [Number(form.k) || 0]. *)
Definition numField (form : gmap string JsVal) (k : string) : Q :=
  orZero (Number (field form k)).

(** *** [round(num, decimals = 2)] *)

(** [Math.round]: the nearest integer, ties towards plus infinity. *)
Definition Math_round (x : Q) : Z := Qfloor (x + (1 # 2)).

Definition round (num : Q) : Q :=
  inject_Z (Math_round (num * 100)) / 100.

(** *** [String.prototype.includes] *)

Fixpoint includes (pat s : string) : bool :=
  (String.prefix pat s
   || match s with
      | EmptyString => false
      | String _ r => includes pat r
      end)%bool.

(** [Math.max] on two numbers. *)
Definition Math_max (x y : Q) : Q := if Qltb x y then y else x.

(** ** Data shared by the three variants *)

(** [EmissionBreakdown], the object returned by [results]. *)
Record Breakdown : Type := mkBreakdown {
  deviceKg : Q;
  dataKg : Q;
  aiKg : Q;
  totalKg : Q
}.

(** The three sums before [round] is applied to them. *)
Record Unrounded : Type := mkUnrounded {
  rawDeviceKg : Q;
  rawDataKg : Q;
  rawAiKg : Q
}.

(** The [return { deviceKg: round(deviceKg), ... , totalKg }] of every
    variant, with [totalKg = round(deviceKg + dataKg + aiKg)]. *)
Definition breakdown (u : Unrounded) : Breakdown :=
  let totalKg := round (rawDeviceKg u + rawDataKg u + rawAiKg u) in
  {| deviceKg := round (rawDeviceKg u);
     dataKg := round (rawDataKg u);
     aiKg := round (rawAiKg u);
     totalKg := totalKg |}.

Record DeviceEntry : Type := mkDevice {
  type : string;
  count : Q;
  duration : Q
}.

(** The [deviceData] array literal, the same in the three variants. *)
Definition deviceData (form : gmap string JsVal) : list DeviceEntry :=
  let entry type countField durationField :=
    {| type := type;
       count := numField form countField;
       duration := numField form durationField |} in
  [ entry "Smartphone" "smartphone" "smartphoneDuration";
    entry "Laptop" "laptop" "laptopDuration";
    entry "Tablet" "tablet" "tabletDuration";
    entry "Desktop" "desktop" "desktopDuration";
    entry "Smart TV" "smartTV" "smartTVDuration";
    entry "Gaming Console" "gamingConsole" "gamingConsoleDuration";
    entry "Streaming Device" "streamingDevice" "streamingDeviceDuration";
    entry "Smart Home Devices" "smartHomeDevices" "smartHomeDevicesDuration";
    entry "Router" "router" "routerDuration";
    entry "Other" "otherDevices" "otherDevicesDuration" ].

(** The form fields [deviceData] reads: a count and a duration per
    device category. *)
Definition deviceFields : list string :=
  [ "smartphone"; "smartphoneDuration"; "laptop"; "laptopDuration";
    "tablet"; "tabletDuration"; "desktop"; "desktopDuration";
    "smartTV"; "smartTVDuration"; "gamingConsole"; "gamingConsoleDuration";
    "streamingDevice"; "streamingDeviceDuration";
    "smartHomeDevices"; "smartHomeDevicesDuration";
    "router"; "routerDuration"; "otherDevices"; "otherDevicesDuration" ].

(** [devicePowerW[type] || 0]. *)
Definition powerOf (devicePowerW : gmap string Q) (type : string) : Q :=
  default 0 (devicePowerW !! type).

(** [deviceData.forEach(...)] adding into [deviceKg], which starts at 0;
    [emission] is the amount the loop body adds for an entry that passes
    the guard [count > 0 && duration > 0]. *)
Definition forEachDevice (emission : DeviceEntry -> Q)
    (l : list DeviceEntry) : Q :=
  fold_left
    (fun deviceKg e =>
       if (Qltb 0 (count e) && Qltb 0 (duration e))%bool
       then deviceKg + emission e
       else deviceKg)
    l 0.

(** [getPowerSourceMultiplier], a [switch] on [form.renewableEnergyUsage]
    (strict equality with the case labels). *)
Definition getPowerSourceMultiplier (renewableEnergyUsage : JsVal) : Q :=
  match renewableEnergyUsage with
  | JStr s =>
      if String.eqb s "0% - All conventional energy" then 1.0
      else if String.eqb s "1-25% - Mostly conventional" then 0.9
      else if String.eqb s "26-50% - Mixed sources" then 0.7
      else if String.eqb s "51-75% - Mostly renewable" then 0.4
      else if String.eqb s "76-100% - All or mostly renewable" then 0.2
      else 0.8
  | _ => 0.8
  end.

(** [getChargingMultiplier], a [switch] on [form.chargingHabits]. *)
Definition getChargingMultiplier (chargingHabits : JsVal) : Q :=
  match chargingHabits with
  | JStr s =>
      if String.eqb s "Always keep plugged in" then 1.3
      else if String.eqb s "Charge overnight (8+ hours)" then 1.1
      else if String.eqb s "Charge when needed (1-3 hours)" then 1.0
      else if String.eqb s "Quick charge frequently (15-30 min)" then 1.2
      else if String.eqb s "Battery saver mode user" then 0.8
      else 1.0
  | _ => 1.0
  end.

(** ** [src/App.js], first component: the simple variant *)

Module AppSimple.

Record Defaults : Type := mkDefaults {
  gridKgCO2PerKWh : Q;
  devicePowerW : gmap string Q;
  kgCO2PerGB : Q;
  inrPerTonneCO2 : Q;
  gbPerStreamingHour : Q
}.

Definition DEFAULTS : Defaults :=
  {| gridKgCO2PerKWh := 0.7;
     devicePowerW :=
       <["Smartphone" := 5]> (<["Laptop" := 50]> (<["Tablet" := 10]>
       (<["Desktop" := 150]> (<["Smart TV" := 80]> (<["Other" := 30]>
       (<["Gaming Console" := 120]> (<["Streaming Device" := 15]>
       (<["Smart Home Devices" := 25]> (<["Router" := 10]> ∅)))))))));
     kgCO2PerGB := 0.05;
     inrPerTonneCO2 := 2000;
     gbPerStreamingHour := 1.5 |}.

(** The body of the [forEach] callback, under its guard. *)
Definition deviceEmission (defaults : Defaults) (e : DeviceEntry) : Q :=
  let powerW := powerOf (devicePowerW defaults) (type e) in
  let kwhPerYear := (powerW * duration e * 365) / 1000 in
  count e * (kwhPerYear * gridKgCO2PerKWh defaults).

Definition deviceKgOf (form : gmap string JsVal) (defaults : Defaults) : Q :=
  if negb (truthy (field form "noDevices"))
  then forEachDevice (deviceEmission defaults) (deviceData form)
  else 0.

(** Annual streaming gigabytes of the monthly model. *)
Definition gbFromStreamingPerYear (hoursPerWeek rate : Q) : Q :=
  let streamingHoursPerMonth := hoursPerWeek * 4.345 in
  streamingHoursPerMonth * rate * 12.

Definition dataKgOf (form : gmap string JsVal) (defaults : Defaults) : Q :=
  let academic := numField form "streamingAcademicHrsPerWeek" in
  let nonAcad := numField form "streamingNonAcademicHrsPerWeek" in
  let gbStreaming :=
    gbFromStreamingPerYear (academic + nonAcad)
      (orZero (Number (JNum (Finite (gbPerStreamingHour defaults))))) in
  let gbFromBigTransfersPerYear :=
    numField form "largeTransfersPerMonth" * 12 in
  let totalGB := gbStreaming + gbFromBigTransfersPerYear in
  totalGB * kgCO2PerGB defaults.

Definition aiKgOf (form : gmap string JsVal) : Q :=
  let aiInteractions := numField form "aiInteractionsPerDay" in
  let aiMinutes := numField form "typicalAiSessionMinutes" in
  aiInteractions * aiMinutes * 365 * 0.001.

Definition emissions (form : gmap string JsVal) (defaults : Defaults)
  : Unrounded :=
  {| rawDeviceKg := deviceKgOf form defaults;
     rawDataKg := dataKgOf form defaults;
     rawAiKg := aiKgOf form |}.

Definition results (form : gmap string JsVal) (defaults : Defaults)
  : Breakdown :=
  breakdown (emissions form defaults).

(** The argument of [round] in [kgToInr]. *)
Definition inrUnrounded (defaults : Defaults) (kg : JsVal) : Q :=
  let tonne := orZero (Number kg) / 1000 in
  tonne * orZero (Number (JNum (Finite (inrPerTonneCO2 defaults)))).

Definition kgToInr (defaults : Defaults) (kg : JsVal) : Q :=
  round (inrUnrounded defaults kg).

End AppSimple.

(** ** [src/App.js], second component: multipliers added to the device loop *)

Module AppExtended.

Definition Defaults := AppSimple.Defaults.
Definition DEFAULTS : Defaults := AppSimple.DEFAULTS.

Definition deviceEmission (form : gmap string JsVal) (defaults : Defaults)
    (e : DeviceEntry) : Q :=
  let powerSourceMultiplier :=
    getPowerSourceMultiplier (field form "renewableEnergyUsage") in
  let chargingMultiplier :=
    getChargingMultiplier (field form "chargingHabits") in
  let powerW := powerOf (AppSimple.devicePowerW defaults) (type e) in
  let kwhPerYear := (powerW * duration e * 365) / 1000 in
  let baseEmissions :=
    count e * (kwhPerYear * AppSimple.gridKgCO2PerKWh defaults) in
  baseEmissions * powerSourceMultiplier * chargingMultiplier.

Definition deviceKgOf (form : gmap string JsVal) (defaults : Defaults) : Q :=
  if negb (truthy (field form "noDevices"))
  then forEachDevice (deviceEmission form defaults) (deviceData form)
  else 0.

(** The data, AI and currency code is that of the first component. *)
Definition emissions (form : gmap string JsVal) (defaults : Defaults)
  : Unrounded :=
  {| rawDeviceKg := deviceKgOf form defaults;
     rawDataKg := AppSimple.dataKgOf form defaults;
     rawAiKg := AppSimple.aiKgOf form |}.

Definition results (form : gmap string JsVal) (defaults : Defaults)
  : Breakdown :=
  breakdown (emissions form defaults).

Definition kgToInr (defaults : Defaults) (kg : JsVal) : Q :=
  AppSimple.kgToInr defaults kg.

End AppExtended.

(** ** The Indian-defaults component: categorical answers *)

(** A computation that may throw: calling [.includes] on a value that is
    not a string raises a [TypeError]. *)
Inductive error : Type := TypeError.

Inductive result (A : Type) : Type :=
  | Ok (a : A)
  | Throw (e : error).
Arguments Ok {A} a.
Arguments Throw {A} e.

Definition bind {A B : Type} (m : result A) (f : A -> result B) : result B :=
  match m with
  | Ok a => f a
  | Throw e => Throw e
  end.

Notation "'let*' x ':=' m 'in' k" := (bind m (fun x => k))
  (at level 10, x name, m at level 100, k at level 200).

(** [v || ""]. *)
Definition orEmpty (v : JsVal) : JsVal :=
  if truthy v then v else JStr "".

(** The method call [text.includes(pat)]: only a string has the method. *)
Definition call_includes (text : JsVal) (pat : string) : result bool :=
  match text with
  | JStr s => Ok (includes pat s)
  | _ => Throw TypeError
  end.

(** One arm of an [if (text.includes(pat)) x = v else ...] chain. *)
Definition ifIncludes {A : Type} (text : JsVal) (pat : string) (v : A)
    (otherwise : result A) : result A :=
  let* hit := call_includes text pat in
  if hit then Ok v else otherwise.

Module IndianDefaults.

Record StreamingRates : Type := mkRates {
  SD : Q;
  HD : Q;
  UHD4K : Q;
  rate_default : Q
}.

Record AiFactors : Type := mkAi {
  text : Q;
  image : Q;
  code : Q;
  voice : Q;
  mixed : Q;
  ai_default : Q
}.

Record Defaults : Type := mkDefaults {
  gridKgCO2PerKWh : Q;
  devicePowerW : gmap string Q;
  kgCO2PerGB : Q;
  inrPerTonneCO2 : Q;
  gbPerStreamingHour : StreamingRates;
  aiKgCO2PerQuery : AiFactors
}.

Definition INDIAN_DEFAULTS : Defaults :=
  {| gridKgCO2PerKWh := 0.82;
     devicePowerW :=
       <["Smartphone" := 3]> (<["Laptop" := 65]> (<["Tablet" := 8]>
       (<["Desktop" := 180]> (<["Smart TV" := 100]> (<["Other" := 25]>
       (<["Gaming Console" := 150]> (<["Streaming Device" := 12]>
       (<["Smart Home Devices" := 15]> (<["Router" := 8]> ∅)))))))));
     kgCO2PerGB := 0.065;
     inrPerTonneCO2 := 3000;
     gbPerStreamingHour :=
       {| SD := 0.3; HD := 1.2; UHD4K := 4.5; rate_default := 1.2 |};
     aiKgCO2PerQuery :=
       {| text := 0.0001; image := 0.02; code := 0.0002; voice := 0.0001;
          mixed := 0.005; ai_default := 0.0005 |} |}.

Definition deviceEmission (form : gmap string JsVal) (defaults : Defaults)
    (e : DeviceEntry) : Q :=
  let powerSourceMultiplier :=
    getPowerSourceMultiplier (field form "renewableEnergyUsage") in
  let chargingMultiplier :=
    getChargingMultiplier (field form "chargingHabits") in
  let powerW := powerOf (devicePowerW defaults) (type e) in
  let kwhPerYear := (powerW * duration e * 365) / 1000 in
  let baseEmissions := count e * (kwhPerYear * gridKgCO2PerKWh defaults) in
  baseEmissions * powerSourceMultiplier * chargingMultiplier.

(** This component has no [noDevices] flag. *)
Definition deviceKgOf (form : gmap string JsVal) (defaults : Defaults) : Q :=
  forEachDevice (deviceEmission form defaults) (deviceData form).

(** The five range tables, each an [if / else if] chain over
    [text.includes(..)] whose variable starts at 0. *)
Definition academicHours (academicText : JsVal) : result Q :=
  ifIncludes academicText "1-5" 3
  (ifIncludes academicText "6-15" 10
  (ifIncludes academicText "16-30" 23
  (ifIncludes academicText "31-50" 40
  (ifIncludes academicText "50+" 65
  (Ok 0))))).

Definition entertainmentHours (entertainmentText : JsVal) : result Q :=
  ifIncludes entertainmentText "1-10" 5
  (ifIncludes entertainmentText "11-25" 18
  (ifIncludes entertainmentText "26-40" 33
  (ifIncludes entertainmentText "41-60" 50
  (ifIncludes entertainmentText "60+" 80
  (Ok 0))))).

Definition cloudHours (cloudText : JsVal) : result Q :=
  ifIncludes cloudText "1-5" 3
  (ifIncludes cloudText "6-15" 10
  (ifIncludes cloudText "16-30" 23
  (ifIncludes cloudText "31-50" 40
  (ifIncludes cloudText "50+" 65
  (Ok 0))))).

Definition aiInteractionsDaily (aiInteractionsText : JsVal) : result Q :=
  ifIncludes aiInteractionsText "1-5" 3
  (ifIncludes aiInteractionsText "6-15" 10
  (ifIncludes aiInteractionsText "16-30" 23
  (ifIncludes aiInteractionsText "31-50" 40
  (ifIncludes aiInteractionsText "50+" 75
  (Ok 0))))).

Definition sessionMinutes (aiSessionText : JsVal) : result Q :=
  ifIncludes aiSessionText "Less than 1" 0.5
  (ifIncludes aiSessionText "1-5" 3
  (ifIncludes aiSessionText "6-15" 10
  (ifIncludes aiSessionText "16-30" 23
  (ifIncludes aiSessionText "31-60" 45
  (ifIncludes aiSessionText "More than 1 hour" 90
  (Ok 0)))))).

Definition aiTypeMultiplier (defaults : Defaults) (aiTypeText : JsVal)
  : result Q :=
  let f := aiKgCO2PerQuery defaults in
  ifIncludes aiTypeText "Text generation" (text f)
  (ifIncludes aiTypeText "Image generation" (image f)
  (ifIncludes aiTypeText "Code assistance" (code f)
  (ifIncludes aiTypeText "Voice assistants" (voice f)
  (ifIncludes aiTypeText "Mixed usage" (mixed f)
  (Ok (ai_default f)))))).

(** Annual streaming gigabytes of the weekly model. *)
Definition gbFromStreamingPerYear (hoursPerWeek rate : Q) : Q :=
  hoursPerWeek * rate * 52.

Definition dataKgOf (form : gmap string JsVal) (defaults : Defaults)
  : result Q :=
  let academicText := orEmpty (field form "streamingAcademicHrsPerWeek") in
  let* academicHours := academicHours academicText in
  let entertainmentText :=
    orEmpty (field form "streamingNonAcademicHrsPerWeek") in
  let* entertainmentHours := entertainmentHours entertainmentText in
  let totalStreamingHoursPerWeek := academicHours + entertainmentHours in
  let gbStreaming :=
    gbFromStreamingPerYear totalStreamingHoursPerWeek
      (rate_default (gbPerStreamingHour defaults)) in
  let cloudText := orEmpty (field form "cloudHoursPerWeek") in
  let* cloudHours := cloudHours cloudText in
  let gbFromCloudPerYear := cloudHours * 52 * 0.5 in
  let gbFromBigTransfersPerYear :=
    numField form "largeTransfersPerMonth" * 12 in
  let totalGB := gbStreaming + gbFromCloudPerYear + gbFromBigTransfersPerYear in
  Ok (totalGB * kgCO2PerGB defaults).

Definition queriesPerSession (sessionMinutes : Q) : Q :=
  Math_max 1 (sessionMinutes / 2).

(** The guarded assignment to [aiKg], which starts at 0. *)
Definition aiKgFrom (aiInteractionsDaily sessionMinutes aiTypeMultiplier : Q)
  : Q :=
  if (Qltb 0 aiInteractionsDaily && Qltb 0 sessionMinutes)%bool then
    let totalQueriesPerYear :=
      aiInteractionsDaily * queriesPerSession sessionMinutes * 365 in
    totalQueriesPerYear * aiTypeMultiplier
  else 0.

Definition aiKgOf (form : gmap string JsVal) (defaults : Defaults)
  : result Q :=
  let aiInteractionsText := orEmpty (field form "aiInteractionsPerDay") in
  let aiSessionText := orEmpty (field form "typicalAiSessionMinutes") in
  let aiTypeText := orEmpty (field form "aiUsageTypes") in
  let* interactions := aiInteractionsDaily aiInteractionsText in
  let* minutes := sessionMinutes aiSessionText in
  let* multiplier := aiTypeMultiplier defaults aiTypeText in
  Ok (aiKgFrom interactions minutes multiplier).

Definition emissions (form : gmap string JsVal) (defaults : Defaults)
  : result Unrounded :=
  let deviceKg := deviceKgOf form defaults in
  let* dataKg := dataKgOf form defaults in
  let* aiKg := aiKgOf form defaults in
  Ok {| rawDeviceKg := deviceKg; rawDataKg := dataKg; rawAiKg := aiKg |}.

Definition results (form : gmap string JsVal) (defaults : Defaults)
  : result Breakdown :=
  let* u := emissions form defaults in
  Ok (breakdown u).

(** The argument of [round] in [kgToInr]. *)
Definition inrUnrounded (defaults : Defaults) (kg : JsVal) : Q :=
  let tonne := orZero (Number kg) / 1000 in
  let socialCostMultiplier := 1.5 in
  tonne * orZero (Number (JNum (Finite (inrPerTonneCO2 defaults))))
  * socialCostMultiplier.

Definition kgToInr (defaults : Defaults) (kg : JsVal) : Q :=
  round (inrUnrounded defaults kg).

End IndianDefaults.

(** ** Predicates and sample responses used in the statements *)

(** Whether a computation returned. *)
Definition is_ok {A : Type} (m : result A) : bool :=
  match m with Ok _ => true | Throw _ => false end.

(** What the loop adds for one entry. *)
Definition contribution (emission : DeviceEntry -> Q) (e : DeviceEntry) : Q :=
  if (Qltb 0 (count e) && Qltb 0 (duration e))%bool then emission e else 0.

(** A configuration without negative entries. *)
Definition nonneg_config (grid : Q) (power : gmap string Q) : Prop :=
  0 <= grid /\ forall t p, power !! t = Some p -> 0 <= p.

(** The tables whose first test is for ["1-5"]. *)
Definition maps_to_1_5_midpoint (s : string) : Prop :=
  IndianDefaults.aiInteractionsDaily (orEmpty (JStr s)) = Ok 3
  /\ IndianDefaults.academicHours (orEmpty (JStr s)) = Ok 3
  /\ IndianDefaults.cloudHours (orEmpty (JStr s)) = Ok 3.

(** A label that none of the patterns of a table occurs in. *)
Definition unmatched (patterns : list string) (s : string) : bool :=
  forallb (fun pat => negb (includes pat s)) patterns.

(** The fields read through [(form.k || "").includes(..)]. *)
Definition categoricalFields : list string :=
  [ "streamingAcademicHrsPerWeek"; "streamingNonAcademicHrsPerWeek";
    "cloudHoursPerWeek"; "aiInteractionsPerDay"; "typicalAiSessionMinutes";
    "aiUsageTypes" ].

(** A string, or a value that [|| ""] replaces by the empty string:
    [undefined], [false], 0 or [NaN]. *)
Definition textual (v : JsVal) : bool :=
  match v with
  | JStr _ => true
  | _ => negb (truthy v)
  end.

(** The response with the number 5 in [cloudHoursPerWeek]. *)
Definition numericCloudHours : gmap string JsVal :=
  <["cloudHoursPerWeek" := JNum (Finite 5)]> ∅.

(** Scenario C of the specification. *)
Definition scenarioC : gmap string JsVal :=
  <["aiInteractionsPerDay" := JStr "1-5 times"]>
  (<["typicalAiSessionMinutes" := JStr "1-5 minutes"]>
  (<["aiUsageTypes" := JStr "Text generation (ChatGPT, etc.)"]> ∅)).

(** A response whose only entry is a negative number typed into the
    "Uploads / big transfers per month (GB)" box. *)
Definition negativeTransfer : gmap string JsVal :=
  <["largeTransfersPerMonth" := JStr "-5"]> ∅.

(** A response whose only entries are a negative number of AI
    interactions per day and a session length of three minutes. *)
Definition negativeInteractions : gmap string JsVal :=
  <["aiInteractionsPerDay" := JStr "-2"]>
  (<["typicalAiSessionMinutes" := JStr "3"]> ∅).

(** Two smartphones used five hours a day, and the box "no devices"
    ticked. *)
Definition tickedNoDevices : gmap string JsVal :=
  <["noDevices" := JBool true]>
  (<["smartphone" := JStr "2"]> (<["smartphoneDuration" := JStr "5"]> ∅)).

(** The same response with the string "false" where the box stores a
    boolean. *)
Definition stringNoDevices : gmap string JsVal :=
  <["noDevices" := JStr "false"]>
  (<["smartphone" := JStr "2"]> (<["smartphoneDuration" := JStr "5"]> ∅)).

(** No AI use declared, and the number 5 in [aiUsageTypes]. *)
Definition numericAiType : gmap string JsVal :=
  <["aiInteractionsPerDay" := JStr "0 - Don't use AI"]>
  (<["aiUsageTypes" := JNum (Finite 5)]> ∅).

(** A smartphone used four hours a day, the count not yet entered. *)
Definition fourHourPhone : gmap string JsVal :=
  <["smartphoneDuration" := JStr "4"]> ∅.

(** The first option of "AI interactions per day", with image generation
    and a long session. *)
Definition noAiUse : gmap string JsVal :=
  <["aiInteractionsPerDay" := JStr "0 - Don't use AI"]>
  (<["typicalAiSessionMinutes" := JStr "More than 1 hour"]>
  (<["aiUsageTypes" := JStr "Image generation (DALL-E, etc.)"]> ∅)).

(** ** The option lists of the [Select] widgets

    The second component of [App.js] and the Indian-defaults component
    offer the same options for these questions. *)

Definition aiInteractionOptions : list string :=
  [ "0 - Don't use AI"; "1-5 times"; "6-15 times"; "16-30 times";
    "31-50 times"; "50+ times" ].

Definition aiUsageOptions : list string :=
  [ "Text generation (ChatGPT, etc.)"; "Image generation (DALL-E, etc.)";
    "Code assistance (GitHub Copilot, etc.)";
    "Voice assistants (Siri, Alexa, etc.)";
    "Mixed usage (text + image + code)"; "Other AI tools"; "Don't use AI" ].

Definition aiSessionOptions : list string :=
  [ "Less than 1 minute"; "1-5 minutes"; "6-15 minutes"; "16-30 minutes";
    "31-60 minutes"; "More than 1 hour" ].

Definition cloudOptions : list string :=
  [ "0 - Don't use cloud services";
    "1-5 hrs - Light usage (email, basic storage)";
    "6-15 hrs - Moderate usage (Google Drive, Office 365)";
    "16-30 hrs - Heavy usage (video calls, collaboration)";
    "31-50 hrs - Very heavy usage (streaming, gaming)";
    "50+ hrs - Constant usage (work/business)" ].

Definition academicOptions : list string :=
  [ "0 - No academic streaming";
    "1-5 hrs - Light (few lectures/courses)";
    "6-15 hrs - Moderate (regular classes)";
    "16-30 hrs - Heavy (full online courses)";
    "31-50 hrs - Very heavy (intensive programs)";
    "50+ hrs - Constant (full-time online)" ].

Definition entertainmentOptions : list string :=
  [ "0 - No entertainment streaming";
    "1-10 hrs - Light (occasional shows)";
    "11-25 hrs - Moderate (regular viewing)";
    "26-40 hrs - Heavy (daily streaming)";
    "41-60 hrs - Very heavy (binge watcher)";
    "60+ hrs - Constant (background streaming)" ].

(** ** Place, identity, export and submission *)

(** The method call [text.trim()]: only a string has the method. *)
Definition call_trim (text : JsVal) : result string :=
  match text with
  | JStr s => Ok (string_of_list_ascii (trim (list_ascii_of_string s)))
  | _ => Throw TypeError
  end.

(** Truthiness of a string. *)
Definition nonEmpty (s : string) : bool := negb (String.eqb s "").

(** [getCityState], the same in the three components. *)
Definition getCityState (form : gmap string JsVal) : result string :=
  let* c := call_trim (orEmpty (field form "city")) in
  let* s := call_trim (orEmpty (field form "state")) in
  if (nonEmpty c && nonEmpty s)%bool then Ok (c ++ ", " ++ s)%string
  else if nonEmpty c then Ok c
  else if nonEmpty s then Ok s
  else Ok ""%string.

(** [generateParticipantId]; [now] is what [Date.now()] returns, a whole
    number of milliseconds. *)
Definition generateParticipantId (now : Z) : string :=
  ("P" ++ pretty now)%string.

(** The object [data] built by [downloadJSON] and by [handleSubmit];
    [iso] is what [new Date().toISOString()] returns. *)
Record ExportData : Type := mkExport {
  participantId : string;
  timestamp : string;
  exportedForm : gmap string JsVal;
  exportedResults : Breakdown;
  cityState : string
}.

Definition exportData (form : gmap string JsVal) (results : Breakdown)
    (now : Z) (iso : string) : result ExportData :=
  let participantId := generateParticipantId now in
  let* cityState := getCityState form in
  Ok {| participantId := participantId;
        timestamp := iso;
        exportedForm := form;
        exportedResults := results;
        cityState := cityState |}.

(** [downloadJSON]: the object serialized into the blob and the name
    given to the download. *)
Definition downloadJSON (form : gmap string JsVal) (results : Breakdown)
    (now : Z) (iso : string) : result (ExportData * string) :=
  let* data := exportData form results now iso in
  Ok (data, ("survey_" ++ participantId data ++ ".json")%string).

(** The argument of a [setMessage] call. *)
Record Message : Type := mkMessage {
  messageType : string;
  messageText : string
}.

(** A [fetch(webhookUrl, { method: 'POST', ..., body })] call. *)
Record Request : Type := mkRequest {
  requestUrl : string;
  requestMethod : string;
  requestBody : ExportData
}.

(** Whether the awaited [fetch] resolves or rejects. *)
Inductive FetchOutcome : Type := Resolves | Rejects.

(** What one run of [handleSubmit] does: the message it sets and the
    requests it issues. *)
Record Submission : Type := mkSubmission {
  message : option Message;
  requests : list Request
}.

Definition consentMessage : Message :=
  {| messageType := "error";
     messageText := "Please provide consent to participate." |}.

Module AppSubmit.

Definition successMessage : Message :=
  {| messageType := "success";
     messageText :=
       "Survey submitted successfully! Your carbon footprint has been calculated." |}.

Definition failureMessage : Message :=
  {| messageType := "error";
     messageText := "Failed to submit survey. Please try again." |}.

(** [handleSubmit] of both components of [App.js]. *)
Definition handleSubmit (form : gmap string JsVal) (results : Breakdown)
    (webhookUrl : string) (now : Z) (iso : string) (net : FetchOutcome)
  : result Submission :=
  if negb (truthy (field form "consent")) then
    Ok {| message := Some consentMessage; requests := [] |}
  else
    let* data := exportData form results now iso in
    if nonEmpty webhookUrl then
      let request :=
        {| requestUrl := webhookUrl; requestMethod := "POST";
           requestBody := data |} in
      match net with
      | Resolves =>
          Ok {| message := Some successMessage; requests := [request] |}
      | Rejects =>
          Ok {| message := Some failureMessage; requests := [request] |}
      end
    else Ok {| message := Some successMessage; requests := [] |}.

End AppSubmit.

Module IndianSubmit.

Definition successMessage : Message :=
  {| messageType := "success";
     messageText :=
       "Survey completed successfully! Your carbon footprint has been calculated." |}.

(** [handleSubmit] of the Indian-defaults component: no request is made. *)
Definition handleSubmit (form : gmap string JsVal) : Submission :=
  if negb (truthy (field form "consent")) then
    {| message := Some consentMessage; requests := [] |}
  else {| message := Some successMessage; requests := [] |}.

End IndianSubmit.

(** The product of the two multipliers of the extended device loop. *)
Definition deviceMultiplier (form : gmap string JsVal) : Q :=
  getPowerSourceMultiplier (field form "renewableEnergyUsage")
  * getChargingMultiplier (field form "chargingHabits").

(** No entry of the list passes the guard of the device loop. *)
Definition no_positive_entry (l : list DeviceEntry) : Prop :=
  Forall (fun e => count e <= 0 \/ duration e <= 0) l.

(** The fields the data and AI formulas read. *)
Definition usageFields : list string :=
  [ "streamingAcademicHrsPerWeek"; "streamingNonAcademicHrsPerWeek";
    "cloudHoursPerWeek"; "largeTransfersPerMonth"; "aiInteractionsPerDay";
    "typicalAiSessionMinutes"; "aiUsageTypes" ].

(** A laptop without a duration and a tablet with a negative count. *)
Definition idleDevices : gmap string JsVal :=
  <["laptop" := JStr "2"]>
  (<["tablet" := JStr "-1"]> (<["tabletDuration" := JStr "3"]> ∅)).

(** One laptop used six hours a day by a respondent who charges
    overnight and has mostly renewable power. *)
Definition greenLaptop : gmap string JsVal :=
  <["laptop" := JStr "1"]>
  (<["laptopDuration" := JStr "6"]>
  (<["renewableEnergyUsage" := JStr "51-75% - Mostly renewable"]>
  (<["chargingHabits" := JStr "Charge overnight (8+ hours)"]> ∅))).

(** A configuration of the Indian-defaults component without negative
    factors. *)
Definition nonneg_indian (d : IndianDefaults.Defaults) : Prop :=
  nonneg_config (IndianDefaults.gridKgCO2PerKWh d)
    (IndianDefaults.devicePowerW d)
  /\ 0 <= IndianDefaults.kgCO2PerGB d
  /\ 0 <= IndianDefaults.rate_default (IndianDefaults.gbPerStreamingHour d)
  /\ 0 <= IndianDefaults.text (IndianDefaults.aiKgCO2PerQuery d)
  /\ 0 <= IndianDefaults.image (IndianDefaults.aiKgCO2PerQuery d)
  /\ 0 <= IndianDefaults.code (IndianDefaults.aiKgCO2PerQuery d)
  /\ 0 <= IndianDefaults.voice (IndianDefaults.aiKgCO2PerQuery d)
  /\ 0 <= IndianDefaults.mixed (IndianDefaults.aiKgCO2PerQuery d)
  /\ 0 <= IndianDefaults.ai_default (IndianDefaults.aiKgCO2PerQuery d).

(** All of a breakdown's amounts are at least 0. *)
Definition nonneg_breakdown (r : Breakdown) : Prop :=
  0 <= deviceKg r /\ 0 <= dataKg r /\ 0 <= aiKg r /\ 0 <= totalKg r.

(** Heavy use of everything the Indian-defaults survey asks about. *)
Definition heavyUse : gmap string JsVal :=
  <["aiInteractionsPerDay" := JStr "50+ times"]>
  (<["typicalAiSessionMinutes" := JStr "More than 1 hour"]>
  (<["aiUsageTypes" := JStr "Image generation (DALL-E, etc.)"]>
  (<["streamingAcademicHrsPerWeek" := JStr "50+ hrs - Constant (full-time online)"]>
  (<["largeTransfersPerMonth" := JStr "20"]>
  (<["desktop" := JStr "1"]> (<["desktopDuration" := JStr "8"]> ∅)))))).

(** Numbers typed into the boxes of the first component of [App.js]. *)
Definition typedNumbers : gmap string JsVal :=
  <["streamingAcademicHrsPerWeek" := JStr "4"]>
  (<["largeTransfersPerMonth" := JStr "10"]>
  (<["aiInteractionsPerDay" := JStr "12"]>
  (<["typicalAiSessionMinutes" := JStr "5"]> ∅))).

(** The labels offered for the questions whose answers the formulas of
    [App.js] read with [Number(..) || 0]. *)
Definition usageOptionLabels : list string :=
  aiInteractionOptions ++ aiSessionOptions ++ academicOptions
  ++ entertainmentOptions ++ cloudOptions.

(** A response of the second component of [App.js] filled in from the
    option lists, with 3 GB of transfers a month. *)
Definition selectedOptions : gmap string JsVal :=
  <["aiInteractionsPerDay" := JStr "16-30 times"]>
  (<["typicalAiSessionMinutes" := JStr "6-15 minutes"]>
  (<["streamingAcademicHrsPerWeek" := JStr "6-15 hrs - Moderate (regular classes)"]>
  (<["streamingNonAcademicHrsPerWeek" := JStr "11-25 hrs - Moderate (regular viewing)"]>
  (<["largeTransfersPerMonth" := JStr "3"]> ∅)))).

(** A text that neither starts nor ends with a white-space character. *)
Definition trimmed (s : string) : Prop :=
  starts_ws (list_ascii_of_string s) = false
  /\ ends_ws (rev (list_ascii_of_string s)) = false.

(** A field that is empty, missing or made of whitespace only. *)
Definition blank (v : JsVal) : Prop :=
  call_trim (orEmpty v) = Ok ""%string.

(** A respondent from Pune who typed spaces around the city. *)
Definition puneForm : gmap string JsVal :=
  <["city" := JStr "  Pune "]> (<["state" := JStr "Maharashtra"]> ∅).

(** A respondent from Goa whose city box holds a no-break space
    (U+00A0, the bytes C2 A0). *)
Definition goaForm : gmap string JsVal :=
  <["city" := JStr (String "194"%char (String "160"%char ""))]>
  (<["state" := JStr "Goa"]> ∅).

(** A consenting respondent from Pune. *)
Definition consentingForm : gmap string JsVal :=
  <["consent" := JBool true]> puneForm.

(** The breakdown of a response that gives nothing to compute. *)
Definition zeroBreakdown : Breakdown :=
  {| deviceKg := 0; dataKg := 0; aiKg := 0; totalKg := 0 |}.

(** * Properties *)

(** ** Comparisons *)

Section Comparisons.

Lemma Qltb_lt x y : Qltb x y = true <-> x < y.
Proof. unfold Qltb, Qlt. apply Z.ltb_lt. Qed.

Lemma Qltb_ge x y : Qltb x y = false <-> y <= x.
Proof. unfold Qltb, Qle. rewrite Z.ltb_ge. reflexivity. Qed.

End Comparisons.

(** ** Rounding *)

Section Rounding.

Lemma Math_round_bounds (y : Q) :
  inject_Z (Math_round y) <= y + (1 # 2)
  /\ y + (1 # 2) < inject_Z (Math_round y) + 1.
Proof.
  unfold Math_round. split.
  - apply Qfloor_le.
  - pose proof (Qlt_floor (y + (1 # 2))) as H.
    rewrite inject_Z_plus in H. exact H.
Qed.

Lemma round_eq (x : Q) :
  round x == inject_Z (Math_round (x * 100)) * (1 # 100).
Proof. unfold round. field. Qed.

(** In exact arithmetic [round x] is the multiple of 1/100 nearest to
    [x], a tie going up. *)
Lemma round_half_up (x : Q) :
  (exists n : Z, round x == inject_Z n / 100)
  /\ x - (1 # 200) < round x /\ round x <= x + (1 # 200).
Proof.
  split.
  - exists (Math_round (x * 100)). reflexivity.
  - rewrite round_eq.
    destruct (Math_round_bounds (x * 100)) as [H1 H2]. split; lra.
Qed.

Lemma round_mono (x y : Q) : x <= y -> round x <= round y.
Proof.
  intros H. rewrite !round_eq. unfold Math_round.
  assert (Hz : (Qfloor (x * 100 + (1 # 2)) <= Qfloor (y * 100 + (1 # 2)))%Z).
  { apply Qfloor_resp_le. lra. }
  rewrite Zle_Qle in Hz. lra.
Qed.

#[global] Instance round_compat : Proper (Qeq ==> Qeq) round.
Proof.
  intros x y H. apply Qle_antisym; apply round_mono; rewrite H; apply Qle_refl.
Qed.

Lemma round_0 : round 0 == 0.
Proof. reflexivity. Qed.

(** Doubling the argument moves the rounded value by at most one
    hundredth away from the doubled rounded value. *)
Lemma round_double (x : Q) :
  - (1 # 100) <= round (2 * x) - 2 * round x <= 1 # 100.
Proof.
  rewrite !round_eq.
  destruct (Math_round_bounds (x * 100)) as [H1 H2].
  destruct (Math_round_bounds (2 * x * 100)) as [H3 H4].
  set (n := Math_round (x * 100)) in *.
  set (m := Math_round (2 * x * 100)) in *.
  clearbody n m.
  assert (Hlo : (2 * n + -1 <= m)%Z).
  { assert (Hq : inject_Z (2 * n + -2) < inject_Z m).
    { rewrite inject_Z_plus, inject_Z_mult.
      change (inject_Z 2) with (2 # 1). change (inject_Z (-2)) with (-2 # 1).
      lra. }
    rewrite <- Zlt_Qlt in Hq. lia. }
  assert (Hhi : (m <= 2 * n + 1)%Z).
  { assert (Hq : inject_Z m < inject_Z (2 * n + 2)).
    { rewrite inject_Z_plus, inject_Z_mult.
      change (inject_Z 2) with (2 # 1). lra. }
    rewrite <- Zlt_Qlt in Hq. lia. }
  rewrite Zle_Qle in Hlo, Hhi.
  rewrite inject_Z_plus, inject_Z_mult in Hlo, Hhi.
  change (inject_Z 2) with (2 # 1) in *.
  change (inject_Z (-1)) with (-1 # 1) in *.
  change (inject_Z 1) with (1 # 1) in *.
  split; lra.
Qed.

End Rounding.

(** ** The returned breakdown *)

Section ReturnedBreakdown.

Variable form : gmap string JsVal.

Lemma indian_results_inv (d : IndianDefaults.Defaults) (r : Breakdown) :
  IndianDefaults.results form d = Ok r ->
  exists u, IndianDefaults.emissions form d = Ok u /\ r = breakdown u.
Proof.
  unfold IndianDefaults.results.
  destruct (IndianDefaults.emissions form d) as [u | e]; simpl.
  - intros [= <-]. exists u. split; reflexivity.
  - discriminate.
Qed.

End ReturnedBreakdown.

(** ** Currency conversion *)

Section Currency.

Lemma simple_inr_linear (d : AppSimple.Defaults) (k : Q) :
  AppSimple.inrUnrounded d (JNum (Finite (2 * k)))
  == 2 * AppSimple.inrUnrounded d (JNum (Finite k)).
Proof. unfold AppSimple.inrUnrounded. simpl. field. Qed.

Lemma indian_inr_linear (d : IndianDefaults.Defaults) (k : Q) :
  IndianDefaults.inrUnrounded d (JNum (Finite (2 * k)))
  == 2 * IndianDefaults.inrUnrounded d (JNum (Finite k)).
Proof. unfold IndianDefaults.inrUnrounded. simpl. field. Qed.

(** C4, as stated, fails: with the Indian defaults 0.01 kg converts to
    0.05 and 0.02 kg to 0.09. *)
Lemma kgToInr_doubling_fails :
  ~ (IndianDefaults.kgToInr IndianDefaults.INDIAN_DEFAULTS
       (JNum (Finite (2 * 0.01)))
     == 2 * IndianDefaults.kgToInr IndianDefaults.INDIAN_DEFAULTS
             (JNum (Finite 0.01))).
Proof. vm_compute. discriminate. Qed.

(** C4, amended.  The amount converted is linear in [totalKg] before
    [round] is applied; after it, the value for twice the mass is within
    0.01 of twice the value. *)
Theorem kgToInr_doubling (k : Q) :
  (forall d,
      AppSimple.inrUnrounded d (JNum (Finite (2 * k)))
      == 2 * AppSimple.inrUnrounded d (JNum (Finite k))
      /\ - (1 # 100)
         <= AppSimple.kgToInr d (JNum (Finite (2 * k)))
            - 2 * AppSimple.kgToInr d (JNum (Finite k))
         <= 1 # 100)
  /\ (forall d,
      IndianDefaults.inrUnrounded d (JNum (Finite (2 * k)))
      == 2 * IndianDefaults.inrUnrounded d (JNum (Finite k))
      /\ - (1 # 100)
         <= IndianDefaults.kgToInr d (JNum (Finite (2 * k)))
            - 2 * IndianDefaults.kgToInr d (JNum (Finite k))
         <= 1 # 100).
Proof.
  split; intros d.
  - split; [apply simple_inr_linear |].
    unfold AppSimple.kgToInr. rewrite simple_inr_linear. apply round_double.
  - split; [apply indian_inr_linear |].
    unfold IndianDefaults.kgToInr. rewrite indian_inr_linear.
    apply round_double.
Qed.

End Currency.

(** ** The two annualization conventions *)

Section Annualization.

(** C5, as stated, fails: one weekly hour at 1 GB per hour is 52.14 GB a
    year in the monthly model and 52 GB in the weekly model. *)
Lemma annualizations_differ :
  ~ (AppSimple.gbFromStreamingPerYear 1 1
     == IndianDefaults.gbFromStreamingPerYear 1 1).
Proof. vm_compute. discriminate. Qed.

(** C5, amended.  The monthly model yields 52.14 times hours times rate,
    which is the weekly model's 52 times hours times rate plus 0.14
    times hours times rate; the two agree exactly when hours times rate
    is zero. *)
Theorem annualization_gap (h r : Q) :
  AppSimple.gbFromStreamingPerYear h r
  == IndianDefaults.gbFromStreamingPerYear h r + 0.14 * (h * r)
  /\ (AppSimple.gbFromStreamingPerYear h r
      == IndianDefaults.gbFromStreamingPerYear h r
      <-> h * r == 0).
Proof.
  assert (Hm : AppSimple.gbFromStreamingPerYear h r == 52.14 * (h * r)).
  { unfold AppSimple.gbFromStreamingPerYear. ring. }
  assert (Hw : IndianDefaults.gbFromStreamingPerYear h r == 52 * (h * r)).
  { unfold IndianDefaults.gbFromStreamingPerYear. ring. }
  rewrite Hm, Hw. set (p := h * r). clearbody p.
  split; [ring | split; intros H; lra].
Qed.

End Annualization.

(** ** Substring tests and the range tables *)

Section Includes.

Lemma append_cons (c : ascii) (a b : string) :
  (String c a ++ b)%string = String c (a ++ b)%string.
Proof. reflexivity. Qed.

Lemma append_assoc (a b c : string) :
  ((a ++ b) ++ c)%string = (a ++ b ++ c)%string.
Proof.
  induction a as [| x a IH]; [reflexivity |].
  rewrite !append_cons, IH. reflexivity.
Qed.

Lemma prefix_app (pat s : string) :
  String.prefix pat s = true <-> exists r, s = (pat ++ r)%string.
Proof.
  revert s. induction pat as [| c pat IH]; intros s.
  - split; [intros _; exists s; reflexivity |].
    intros _. destruct s; reflexivity.
  - destruct s as [| c' s]; simpl.
    + split; [discriminate | intros [r Hr]; discriminate].
    + destruct (ascii_dec c c') as [-> | Hc].
      * rewrite IH. split; intros [r Hr]; exists r;
          rewrite append_cons in *; congruence.
      * split; [discriminate |].
        intros [r Hr]. rewrite append_cons in Hr. congruence.
Qed.

(** [includes pat s] holds exactly when [pat] occurs inside [s]. *)
Lemma includes_spec (pat s : string) :
  includes pat s = true <-> exists l r, s = (l ++ pat ++ r)%string.
Proof.
  induction s as [| c s IH].
  - change (includes pat "") with (String.prefix pat "" || false)%bool.
    rewrite orb_false_r, prefix_app. split.
    + intros [r Hr]. exists ""%string, r. exact Hr.
    + intros (l & r & H). destruct l as [| c l]; [| discriminate].
      exists r. exact H.
  - change (includes pat (String c s))
      with (String.prefix pat (String c s) || includes pat s)%bool.
    rewrite orb_true_iff, prefix_app, IH. split.
    + intros [[r Hr] | (l & r & H)].
      * exists ""%string, r. exact Hr.
      * exists (String c l), r. rewrite append_cons. congruence.
    + intros (l & r & H). destruct l as [| c' l].
      * left. exists r. exact H.
      * right. exists l, r. rewrite append_cons in H. congruence.
Qed.

Lemma includes_trans (a b s : string) :
  includes a b = true -> includes b s = true -> includes a s = true.
Proof.
  rewrite !includes_spec. intros (l1 & r1 & ->) (l2 & r2 & ->).
  exists (l2 ++ l1)%string, (r1 ++ r2)%string.
  rewrite !append_assoc. reflexivity.
Qed.

Lemma includes_nonempty (pat s : string) :
  pat <> ""%string -> includes pat s = true -> truthy (JStr s) = true.
Proof.
  intros Hp H. destruct s; [| reflexivity].
  simpl in H. destruct pat; [contradiction | discriminate].
Qed.

Lemma orEmpty_str (pat s : string) :
  pat <> ""%string -> includes pat s = true -> orEmpty (JStr s) = JStr s.
Proof.
  intros Hp H. unfold orEmpty. rewrite (includes_nonempty pat s Hp H).
  reflexivity.
Qed.

Lemma ifIncludes_str {A : Type} (s pat : string) (v : A) (k : result A) :
  ifIncludes (JStr s) pat v k = if includes pat s then Ok v else k.
Proof. reflexivity. Qed.

End Includes.

Section RangeTables.

Import IndianDefaults.

Lemma first_arm_1_5 (s : string) :
  includes "1-5" s = true -> maps_to_1_5_midpoint s.
Proof.
  intros H. unfold maps_to_1_5_midpoint.
  rewrite (orEmpty_str "1-5" s) by (discriminate || exact H).
  unfold aiInteractionsDaily, academicHours, cloudHours.
  rewrite !ifIncludes_str, H. repeat split.
Qed.

(** The ["31-50"] arm of these tables is never taken: no input yields
    its midpoint 40. *)
Lemma arm_31_50_unreachable (text : JsVal) :
  aiInteractionsDaily text <> Ok 40
  /\ academicHours text <> Ok 40
  /\ cloudHours text <> Ok 40.
Proof.
  destruct text as [| b | n | s]; try (repeat split; discriminate).
  unfold aiInteractionsDaily, academicHours, cloudHours.
  rewrite !ifIncludes_str.
  destruct (includes "1-5" s) eqn:E1; [repeat split; discriminate |].
  destruct (includes "31-50" s) eqn:E4.
  - rewrite (includes_trans "1-5" "31-50" s eq_refl E4) in E1. discriminate.
  - destruct (includes "6-15" s), (includes "16-30" s), (includes "50+" s);
      repeat split; discriminate.
Qed.

(** C2.  In the tables for AI interactions per day, academic streaming
    and cloud hours, whose first test is for ["1-5"], a label containing
    ["1-5"] maps to 3; a label containing ["31-50"] contains ["1-5"] and so
    maps to 3 as well, as do the three option labels of the survey that
    start with ["31-50"]; these tables never yield 40.  The session-length
    table tests for ["Less than 1"] before ["1-5"] and maps a label with
    ["1-5"] to 3 when the first test fails. *)
Theorem labels_containing_1_5 :
  (forall s, includes "1-5" s = true -> maps_to_1_5_midpoint s)
  /\ (forall s, includes "31-50" s = true -> maps_to_1_5_midpoint s)
  /\ (forall text,
        aiInteractionsDaily text <> Ok 40
        /\ academicHours text <> Ok 40
        /\ cloudHours text <> Ok 40)
  /\ (forall s, includes "1-5" s = true -> includes "Less than 1" s = false ->
         sessionMinutes (orEmpty (JStr s)) = Ok 3)
  /\ aiInteractionsDaily (orEmpty (JStr "31-50 times")) = Ok 3
  /\ academicHours
       (orEmpty (JStr "31-50 hrs - Very heavy (intensive programs)")) = Ok 3
  /\ cloudHours
       (orEmpty (JStr "31-50 hrs - Very heavy usage (streaming, gaming)"))
     = Ok 3.
Proof.
  split; [exact first_arm_1_5 |]. split; [| split; [| split]].
  - intros s H. apply first_arm_1_5.
    apply (includes_trans "1-5" "31-50" s); [reflexivity | exact H].
  - exact arm_31_50_unreachable.
  - intros s H Hless.
    rewrite (orEmpty_str "1-5" s) by (discriminate || exact H).
    unfold sessionMinutes. rewrite !ifIncludes_str, Hless, H. reflexivity.
  - repeat split.
Qed.

End RangeTables.

(** ** Sign of the returned amounts *)

Section Sign.

(** C3 fails on the code: a negative number of gigabytes typed into
    [largeTransfersPerMonth] passes through [Number(..) || 0] and makes
    [dataKg] and [totalKg] negative in the three variants; in [App.js] a
    negative number of AI interactions does the same to [aiKg]. *)
Theorem negative_transfer_gives_negative_dataKg :
  (dataKg (AppSimple.results negativeTransfer AppSimple.DEFAULTS) == -3
   /\ totalKg (AppSimple.results negativeTransfer AppSimple.DEFAULTS) == -3)
  /\ (dataKg (AppExtended.results negativeTransfer AppExtended.DEFAULTS)
      == -3
      /\ totalKg (AppExtended.results negativeTransfer AppExtended.DEFAULTS)
         == -3)
  /\ (exists r,
        IndianDefaults.results negativeTransfer IndianDefaults.INDIAN_DEFAULTS
        = Ok r
        /\ dataKg r == -3.9 /\ totalKg r == -3.9)
  /\ aiKg (AppSimple.results negativeInteractions AppSimple.DEFAULTS)
     == -2.19
  /\ aiKg (AppExtended.results negativeInteractions AppExtended.DEFAULTS)
     == -2.19.
Proof.
  split; [| split; [| split; [| split]]].
  - split; vm_compute; reflexivity.
  - split; vm_compute; reflexivity.
  - eexists. split; [vm_compute; reflexivity |].
    split; vm_compute; reflexivity.
  - vm_compute. reflexivity.
  - vm_compute. reflexivity.
Qed.

End Sign.

(** ** The "no devices" flag *)

Section NoDevices.

Variable form : gmap string JsVal.

Lemma simple_deviceKg_flag (d : AppSimple.Defaults) :
  deviceKg (AppSimple.results form d)
  = round (if truthy (field form "noDevices") then 0
           else forEachDevice (AppSimple.deviceEmission d)
                  (deviceData form)).
Proof.
  unfold AppSimple.results. simpl. unfold AppSimple.deviceKgOf.
  destruct (truthy (field form "noDevices")); reflexivity.
Qed.

Lemma extended_deviceKg_flag (d : AppExtended.Defaults) :
  deviceKg (AppExtended.results form d)
  = round (if truthy (field form "noDevices") then 0
           else forEachDevice (AppExtended.deviceEmission form d)
                  (deviceData form)).
Proof.
  unfold AppExtended.results. simpl. unfold AppExtended.deviceKgOf.
  destruct (truthy (field form "noDevices")); reflexivity.
Qed.

(** C6, as stated, fails: the flag is not read as a strict boolean.
    With the string "false" in [noDevices], which is not [true], both
    variants of [App.js] skip the two smartphones and return 0, where
    the device loop gives 12.78. *)
Lemma noDevices_not_strict :
  field stringNoDevices "noDevices" <> JBool true
  /\ deviceKg (AppSimple.results stringNoDevices AppSimple.DEFAULTS) == 0
  /\ deviceKg (AppExtended.results stringNoDevices AppExtended.DEFAULTS)
     == 0
  /\ round (forEachDevice (AppSimple.deviceEmission AppSimple.DEFAULTS)
              (deviceData stringNoDevices)) == 12.78.
Proof.
  split; [vm_compute; discriminate |].
  repeat split; vm_compute; reflexivity.
Qed.

(** C6, amended.  The flag is read by truthiness.  Whenever [noDevices]
    holds [true] or any other value that counts as true (a non-empty
    string, a number other than 0 and [NaN]), [deviceKg] is 0 in both
    variants of [App.js], whatever the device fields hold; whenever it
    holds [false], [undefined], the empty string, 0 or [NaN], [deviceKg]
    is the rounded sum of the device loop. *)
Theorem noDevices_read_by_truthiness :
  (truthy (field form "noDevices") = true ->
   forall d d',
     deviceKg (AppSimple.results form d) == 0
     /\ deviceKg (AppExtended.results form d') == 0)
  /\ (truthy (field form "noDevices") = false ->
      forall d d',
        deviceKg (AppSimple.results form d)
        = round (forEachDevice (AppSimple.deviceEmission d)
                   (deviceData form))
        /\ deviceKg (AppExtended.results form d')
           = round (forEachDevice (AppExtended.deviceEmission form d')
                      (deviceData form)))
  /\ (truthy (field form "noDevices") = true
      <-> match field form "noDevices" with
          | JUndefined => False
          | JBool b => b = true
          | JNum (Finite q) => ~ q == 0
          | JNum NaN => False
          | JStr s => s <> ""%string
          end).
Proof.
  split; [| split].
  - intros H d d'.
    rewrite simple_deviceKg_flag, extended_deviceKg_flag, H.
    split; apply round_0.
  - intros H d d'.
    rewrite simple_deviceKg_flag, extended_deviceKg_flag, H.
    split; reflexivity.
  - destruct (field form "noDevices") as [| b | [q |] | s]; simpl.
    + split; [discriminate | tauto].
    + tauto.
    + unfold Qeqb. rewrite negb_true_iff.
      split.
      * intros H E. apply Qeq_bool_iff in E. congruence.
      * intros H. destruct (Qeq_bool q 0) eqn:E; [| reflexivity].
        apply Qeq_bool_iff in E. contradiction.
    + split; [discriminate | tauto].
    + rewrite negb_true_iff. split.
      * intros H ->. discriminate.
      * intros H. destruct s; [contradiction | reflexivity].
Qed.

End NoDevices.

(** ** The AI model of the Indian-defaults component *)

Section AiModel.

Import IndianDefaults.

(** C7.  Scenario C: both labels resolve to 3, the type factor is
    0.0001, a session counts max(1, 3/2) = 1.5 queries, the unrounded
    amount is 3 * 1.5 * 365 * 0.0001 (0.16425, that is 0.164 to three
    places) and the returned [aiKg] is 0.16. *)
Theorem scenario_C_aiKg :
  aiInteractionsDaily (orEmpty (field scenarioC "aiInteractionsPerDay"))
  = Ok 3
  /\ sessionMinutes (orEmpty (field scenarioC "typicalAiSessionMinutes"))
     = Ok 3
  /\ aiTypeMultiplier INDIAN_DEFAULTS
       (orEmpty (field scenarioC "aiUsageTypes")) = Ok 0.0001
  /\ queriesPerSession 3 = Math_max 1 (3 / 2)
  /\ queriesPerSession 3 == 1.5
  /\ exists u r,
       emissions scenarioC INDIAN_DEFAULTS = Ok u
       /\ rawAiKg u == 3 * 1.5 * 365 * 0.0001
       /\ 0.164 <= rawAiKg u < 0.165
       /\ results scenarioC INDIAN_DEFAULTS = Ok r
       /\ aiKg r == 0.16.
Proof.
  repeat (split; [vm_compute; reflexivity |]).
  eexists. eexists.
  split; [vm_compute; reflexivity |].
  split; [vm_compute; reflexivity |].
  split; [split; vm_compute; [discriminate | reflexivity] |].
  split; vm_compute; reflexivity.
Qed.

Lemma aiKgFrom_zero (i m k : Q) :
  i = 0 \/ m = 0 -> aiKgFrom i m k = 0.
Proof.
  unfold aiKgFrom. intros [-> | ->].
  - reflexivity.
  - rewrite andb_comm. reflexivity.
Qed.

Lemma orEmpty_str_id (s : string) :
  orEmpty (JStr s) = JStr s.
Proof. destruct s; reflexivity. Qed.

Lemma aiInteractionsDaily_unmatched (s : string) :
  unmatched ["1-5"; "6-15"; "16-30"; "31-50"; "50+"] s = true ->
  aiInteractionsDaily (orEmpty (JStr s)) = Ok 0.
Proof.
  unfold unmatched. simpl. rewrite !andb_true_iff, !negb_true_iff.
  intros (H1 & H2 & H3 & H4 & H5 & _).
  rewrite orEmpty_str_id. unfold aiInteractionsDaily.
  rewrite !ifIncludes_str, H1, H2, H3, H4, H5. reflexivity.
Qed.

Lemma sessionMinutes_unmatched (s : string) :
  unmatched ["Less than 1"; "1-5"; "6-15"; "16-30"; "31-60";
             "More than 1 hour"] s = true ->
  sessionMinutes (orEmpty (JStr s)) = Ok 0.
Proof.
  unfold unmatched. simpl. rewrite !andb_true_iff, !negb_true_iff.
  intros (H1 & H2 & H3 & H4 & H5 & H6 & _).
  rewrite orEmpty_str_id. unfold sessionMinutes.
  rewrite !ifIncludes_str, H1, H2, H3, H4, H5, H6. reflexivity.
Qed.

(** Whenever the engine returns, a label that resolves to 0 gives an AI
    amount of 0. *)
Lemma aiKg_zero_if_returned
  (form : gmap string JsVal) (d : Defaults) (r : Breakdown) :
  results form d = Ok r ->
  aiInteractionsDaily (orEmpty (field form "aiInteractionsPerDay")) = Ok 0
  \/ sessionMinutes (orEmpty (field form "typicalAiSessionMinutes")) = Ok 0 ->
  aiKg r == 0.
Proof.
  intros Hr Hz.
  destruct (indian_results_inv form d r Hr) as (u & Hu & ->).
  unfold emissions in Hu.
  destruct (dataKgOf form d) as [dk | e]; [| discriminate].
  simpl in Hu. unfold aiKgOf in Hu.
  destruct (aiInteractionsDaily _) as [i | e]; [| discriminate].
  simpl in Hu.
  destruct (sessionMinutes _) as [m | e]; [| discriminate].
  simpl in Hu.
  destruct (aiTypeMultiplier d _) as [k | e]; [| discriminate].
  simpl in Hu. injection Hu as <-. simpl.
  rewrite aiKgFrom_zero; [apply round_0 |].
  destruct Hz as [[= ->] | [= ->]]; [left | right]; reflexivity.
Qed.

End AiModel.

(** ** The device loop *)

Section DeviceLoop.

Lemma fold_device_le (f g : DeviceEntry -> Q) (l l' : list DeviceEntry) :
  Forall2 (fun e e' => contribution f e <= contribution g e') l l' ->
  forall acc acc', acc <= acc' ->
    fold_left
      (fun deviceKg e =>
         if (Qltb 0 (count e) && Qltb 0 (duration e))%bool
         then deviceKg + f e else deviceKg) l acc
    <= fold_left
         (fun deviceKg e =>
            if (Qltb 0 (count e) && Qltb 0 (duration e))%bool
            then deviceKg + g e else deviceKg) l' acc'.
Proof.
  induction 1 as [| e e' l l' He _ IH]; intros acc acc' Hacc; simpl.
  - exact Hacc.
  - apply IH. unfold contribution in He.
    destruct (Qltb 0 (count e) && Qltb 0 (duration e))%bool;
      destruct (Qltb 0 (count e') && Qltb 0 (duration e'))%bool; lra.
Qed.

Lemma Qmult_le_l_weak (K a b : Q) : 0 <= K -> a <= b -> K * a <= K * b.
Proof.
  intros HK Hab. rewrite (Qmult_comm K a), (Qmult_comm K b).
  apply Qmult_le_compat_r; assumption.
Qed.

Lemma forEachDevice_le (f g : DeviceEntry -> Q) (l l' : list DeviceEntry) :
  Forall2 (fun e e' => contribution f e <= contribution g e') l l' ->
  forEachDevice f l <= forEachDevice g l'.
Proof.
  intros H. unfold forEachDevice. apply fold_device_le; [exact H | lra].
Qed.

(** An amount of the shape [K * (count * duration)] with [K >= 0] grows
    with the count and with the duration, through the guard as well. *)
Lemma contribution_le (f g : DeviceEntry -> Q) (K : Q) (e e' : DeviceEntry) :
  0 <= K ->
  f e == K * (count e * duration e) ->
  g e' == K * (count e' * duration e') ->
  count e <= count e' -> duration e <= duration e' ->
  contribution f e <= contribution g e'.
Proof.
  intros HK Hf Hg Hc Hd. unfold contribution.
  destruct (Qltb 0 (count e')) eqn:Ec';
    destruct (Qltb 0 (duration e')) eqn:Ed';
    destruct (Qltb 0 (count e)) eqn:Ec;
    destruct (Qltb 0 (duration e)) eqn:Ed; simpl;
    rewrite ?Qltb_lt, ?Qltb_ge in *; try lra.
  - rewrite Hf, Hg.
    assert (Hp : count e * duration e <= count e' * duration e') by nra.
    apply Qmult_le_l_weak; assumption.
  - rewrite Hg. apply Qmult_le_0_compat; [exact HK |].
    apply Qmult_le_0_compat; lra.
  - rewrite Hg. apply Qmult_le_0_compat; [exact HK |].
    apply Qmult_le_0_compat; lra.
  - rewrite Hg. apply Qmult_le_0_compat; [exact HK |].
    apply Qmult_le_0_compat; lra.
Qed.

Lemma contribution_le_typed (f g : DeviceEntry -> Q) (K : string -> Q)
    (e e' : DeviceEntry) :
  (forall t, 0 <= K t) ->
  (forall e, f e == K (type e) * (count e * duration e)) ->
  (forall e, g e == K (type e) * (count e * duration e)) ->
  type e = type e' ->
  count e <= count e' -> duration e <= duration e' ->
  contribution f e <= contribution g e'.
Proof.
  intros HK Hf Hg Ht Hc Hd.
  apply (contribution_le f g (K (type e)));
    [apply HK | apply Hf | rewrite Ht; apply Hg | exact Hc | exact Hd].
Qed.

Lemma contribution_nonneg (f : DeviceEntry -> Q) (K : Q) (e : DeviceEntry) :
  0 <= K -> f e == K * (count e * duration e) -> 0 <= contribution f e.
Proof.
  intros HK Hf. unfold contribution.
  destruct (Qltb 0 (count e)) eqn:Ec; destruct (Qltb 0 (duration e)) eqn:Ed;
    simpl; rewrite ?Qltb_lt, ?Qltb_ge in *; try lra.
  rewrite Hf. apply Qmult_le_0_compat; [exact HK |].
  apply Qmult_le_0_compat; lra.
Qed.

Lemma powerOf_nonneg (power : gmap string Q) (t : string) :
  (forall t p, power !! t = Some p -> 0 <= p) -> 0 <= powerOf power t.
Proof.
  intros H. unfold powerOf. destruct (power !! t) as [p |] eqn:E; simpl.
  - exact (H t p E).
  - lra.
Qed.

Lemma getPowerSourceMultiplier_nonneg (v : JsVal) :
  0 <= getPowerSourceMultiplier v.
Proof.
  destruct v as [| b | n | s]; simpl; try lra.
  repeat (match goal with |- context [String.eqb ?a ?b] =>
            destruct (String.eqb a b) end); lra.
Qed.

Lemma getChargingMultiplier_nonneg (v : JsVal) :
  0 <= getChargingMultiplier v.
Proof.
  destruct v as [| b | n | s]; simpl; try lra.
  repeat (match goal with |- context [String.eqb ?a ?b] =>
            destruct (String.eqb a b) end); lra.
Qed.

End DeviceLoop.

Section FieldUpdate.

Variables (form : gmap string JsVal) (k : string) (v v' : JsVal).

Lemma field_insert_ne (f : string) :
  k <> f -> field (<[k := v]> form) f = field form f.
Proof. intros H. unfold field. rewrite lookup_insert_ne by exact H. reflexivity. Qed.

Lemma field_insert_eq : field (<[k := v]> form) k = v.
Proof. unfold field. rewrite lookup_insert_eq. reflexivity. Qed.

Lemma numField_insert_ne (f : string) :
  k <> f -> numField (<[k := v]> form) f = numField form f.
Proof. intros H. unfold numField. rewrite field_insert_ne by exact H. reflexivity. Qed.

End FieldUpdate.

(** ** Monotonicity of the device amount *)

Ltac not_in_deviceFields :=
  apply (bool_decide_unpack _); vm_compute; exact I.

Section DeviceMonotone.

Variables (form : gmap string JsVal) (k : string) (v v' : JsVal).
Hypothesis Hk : k ∈ deviceFields.
Hypothesis Hle : orZero (Number v) <= orZero (Number v').

Lemma numField_insert_le (f : string) :
  numField (<[k := v]> form) f <= numField (<[k := v']> form) f.
Proof.
  destruct (decide (k = f)) as [<- | Hne].
  - unfold numField. rewrite !field_insert_eq. exact Hle.
  - rewrite !numField_insert_ne by exact Hne. apply Qle_refl.
Qed.

Lemma not_device_field (f : string) : f ∉ deviceFields -> k <> f.
Proof using Hk. intros Hf ->. exact (Hf Hk). Qed.

Lemma other_field (w : JsVal) (f : string) :
  f ∉ deviceFields -> field (<[k := w]> form) f = field form f.
Proof using Hk. intros Hf. apply field_insert_ne, not_device_field, Hf. Qed.

Lemma other_numField (w : JsVal) (f : string) :
  f ∉ deviceFields -> numField (<[k := w]> form) f = numField form f.
Proof using Hk. intros Hf. apply numField_insert_ne, not_device_field, Hf. Qed.

Lemma deviceData_forEach_le (f g : DeviceEntry -> Q) (K : string -> Q) :
  (forall t, 0 <= K t) ->
  (forall e, f e == K (type e) * (count e * duration e)) ->
  (forall e, g e == K (type e) * (count e * duration e)) ->
  forEachDevice f (deviceData (<[k := v]> form))
  <= forEachDevice g (deviceData (<[k := v']> form)).
Proof using Hle.
  intros HK Hf Hg. apply forEachDevice_le. unfold deviceData.
  repeat (apply List.Forall2_cons;
          [apply (contribution_le_typed f g K);
           [exact HK | exact Hf | exact Hg | reflexivity
           | apply numField_insert_le | apply numField_insert_le] |]).
  apply List.Forall2_nil.
Qed.

Lemma simple_deviceKgOf_le (d : AppSimple.Defaults) :
  nonneg_config (AppSimple.gridKgCO2PerKWh d) (AppSimple.devicePowerW d) ->
  AppSimple.deviceKgOf (<[k := v]> form) d
  <= AppSimple.deviceKgOf (<[k := v']> form) d.
Proof using Hk Hle.
  intros [Hg Hp]. unfold AppSimple.deviceKgOf.
  rewrite !(other_field _ "noDevices") by not_in_deviceFields.
  destruct (negb (truthy (field form "noDevices"))); [| apply Qle_refl].
  apply deviceData_forEach_le with
    (K := fun t => powerOf (AppSimple.devicePowerW d) t * (365 # 1000)
                   * AppSimple.gridKgCO2PerKWh d).
  - intros t. pose proof (powerOf_nonneg _ t Hp).
    apply Qmult_le_0_compat; [apply Qmult_le_0_compat |]; lra.
  - intros e. unfold AppSimple.deviceEmission. field.
  - intros e. unfold AppSimple.deviceEmission. field.
Qed.

Lemma multipliers_le (grid : Q) (power : gmap string Q)
    (f g : DeviceEntry -> Q) :
  nonneg_config grid power ->
  (forall e,
      f e == count e * (powerOf power (type e) * duration e * 365 / 1000 * grid)
             * getPowerSourceMultiplier (field form "renewableEnergyUsage")
             * getChargingMultiplier (field form "chargingHabits")) ->
  (forall e,
      g e == count e * (powerOf power (type e) * duration e * 365 / 1000 * grid)
             * getPowerSourceMultiplier (field form "renewableEnergyUsage")
             * getChargingMultiplier (field form "chargingHabits")) ->
  forEachDevice f (deviceData (<[k := v]> form))
  <= forEachDevice g (deviceData (<[k := v']> form)).
Proof using Hle.
  intros [Hg Hp] Hf Hg'.
  pose proof (getPowerSourceMultiplier_nonneg
                (field form "renewableEnergyUsage")) as Hm1.
  pose proof (getChargingMultiplier_nonneg (field form "chargingHabits"))
    as Hm2.
  apply deviceData_forEach_le with
    (K := fun t => powerOf power t * (365 # 1000) * grid
                   * getPowerSourceMultiplier (field form "renewableEnergyUsage")
                   * getChargingMultiplier (field form "chargingHabits")).
  - intros t. pose proof (powerOf_nonneg _ t Hp).
    repeat apply Qmult_le_0_compat; lra.
  - intros e. rewrite Hf. field.
  - intros e. rewrite Hg'. field.
Qed.

Lemma extended_deviceKgOf_le (d : AppExtended.Defaults) :
  nonneg_config (AppSimple.gridKgCO2PerKWh d) (AppSimple.devicePowerW d) ->
  AppExtended.deviceKgOf (<[k := v]> form) d
  <= AppExtended.deviceKgOf (<[k := v']> form) d.
Proof using Hk Hle.
  intros Hd. unfold AppExtended.deviceKgOf.
  rewrite !(other_field _ "noDevices") by not_in_deviceFields.
  destruct (negb (truthy (field form "noDevices"))); [| apply Qle_refl].
  apply (multipliers_le _ _ _ _ Hd); intros e;
    unfold AppExtended.deviceEmission;
    rewrite (other_field _ "renewableEnergyUsage") by not_in_deviceFields;
    rewrite (other_field _ "chargingHabits") by not_in_deviceFields;
    reflexivity.
Qed.

Lemma indian_deviceKgOf_le (d : IndianDefaults.Defaults) :
  nonneg_config (IndianDefaults.gridKgCO2PerKWh d)
    (IndianDefaults.devicePowerW d) ->
  IndianDefaults.deviceKgOf (<[k := v]> form) d
  <= IndianDefaults.deviceKgOf (<[k := v']> form) d.
Proof using Hk Hle.
  intros Hd. unfold IndianDefaults.deviceKgOf.
  apply (multipliers_le _ _ _ _ Hd); intros e;
    unfold IndianDefaults.deviceEmission;
    rewrite (other_field _ "renewableEnergyUsage") by not_in_deviceFields;
    rewrite (other_field _ "chargingHabits") by not_in_deviceFields;
    reflexivity.
Qed.

(** The data and AI amounts of the Indian-defaults variant do not read
    the device fields. *)
Lemma indian_dataKgOf_other (w : JsVal) (d : IndianDefaults.Defaults) :
  IndianDefaults.dataKgOf (<[k := w]> form) d = IndianDefaults.dataKgOf form d.
Proof using Hk.
  unfold IndianDefaults.dataKgOf.
  rewrite !other_field, other_numField by not_in_deviceFields.
  reflexivity.
Qed.

Lemma indian_aiKgOf_other (w : JsVal) (d : IndianDefaults.Defaults) :
  IndianDefaults.aiKgOf (<[k := w]> form) d = IndianDefaults.aiKgOf form d.
Proof using Hk.
  unfold IndianDefaults.aiKgOf.
  rewrite !other_field by not_in_deviceFields.
  reflexivity.
Qed.

(** C9.  Raising the number read from one count or duration field, all
    other fields unchanged, does not lower the returned [deviceKg], for
    a grid intensity and power draws that are not negative. *)
Theorem deviceKg_monotone :
  (forall d,
      nonneg_config (AppSimple.gridKgCO2PerKWh d) (AppSimple.devicePowerW d) ->
      deviceKg (AppSimple.results (<[k := v]> form) d)
      <= deviceKg (AppSimple.results (<[k := v']> form) d))
  /\ (forall d,
      nonneg_config (AppSimple.gridKgCO2PerKWh d) (AppSimple.devicePowerW d) ->
      deviceKg (AppExtended.results (<[k := v]> form) d)
      <= deviceKg (AppExtended.results (<[k := v']> form) d))
  /\ (forall d,
      nonneg_config (IndianDefaults.gridKgCO2PerKWh d)
        (IndianDefaults.devicePowerW d) ->
      forall r, IndianDefaults.results (<[k := v]> form) d = Ok r ->
      exists r',
        IndianDefaults.results (<[k := v']> form) d = Ok r'
        /\ deviceKg r <= deviceKg r').
Proof using Hk Hle.
  split; [| split].
  - intros d Hd. apply round_mono, simple_deviceKgOf_le, Hd.
  - intros d Hd. apply round_mono, extended_deviceKgOf_le, Hd.
  - intros d Hd r Hr.
    destruct (indian_results_inv _ d r Hr) as (u & Hu & ->).
    unfold IndianDefaults.results, IndianDefaults.emissions in *.
    rewrite indian_dataKgOf_other, indian_aiKgOf_other in *.
    destruct (IndianDefaults.dataKgOf form d) as [dk | e]; [| discriminate].
    destruct (IndianDefaults.aiKgOf form d) as [ak | e]; [| discriminate].
    simpl in *. injection Hu as <-.
    eexists. split; [reflexivity |]. simpl.
    apply round_mono, indian_deviceKgOf_le, Hd.
Qed.

End DeviceMonotone.

(** ** Which responses make the Indian-defaults engine throw *)

Section Totality.

Import IndianDefaults.

Lemma is_ok_exists {A : Type} (m : result A) :
  is_ok m = true <-> exists a, m = Ok a.
Proof.
  destruct m; simpl; split; eauto; try discriminate.
  intros [a' H]. discriminate.
Qed.

Lemma ifIncludes_str_ok {A : Type} (s pat : string) (x : A) (k : result A) :
  is_ok k = true -> is_ok (ifIncludes (JStr s) pat x k) = true.
Proof.
  intros Hk. rewrite ifIncludes_str.
  destruct (includes pat s); [reflexivity | exact Hk].
Qed.

(** [v || ""] is a string exactly when [v] is textual. *)
Lemma orEmpty_textual (v : JsVal) :
  (exists s, orEmpty v = JStr s) <-> textual v = true.
Proof.
  unfold orEmpty.
  destruct v as [| [|] | [q |] | s]; simpl;
    try (split; [reflexivity | intros _; eexists; reflexivity]);
    try (split; [intros [s' H]; discriminate | discriminate]).
  - destruct (Qeqb q 0); simpl; split;
      try reflexivity; try discriminate;
      try (intros [s' H]; discriminate); intros _; eexists; reflexivity.
  - split; [reflexivity |]. intros _.
    destruct (negb (String.eqb s "")); eexists; reflexivity.
Qed.

Ltac table_ok :=
  let v := fresh "v" in
  intros v; destruct (textual v) eqn:Ht;
  [ apply orEmpty_textual in Ht as [s ->];
    repeat apply ifIncludes_str_ok; reflexivity
  | destruct (orEmpty v) as [| b | n | s] eqn:E; try reflexivity;
    assert (textual v = true) by (apply orEmpty_textual; eauto);
    congruence ].

Lemma academicHours_ok :
  forall v, is_ok (academicHours (orEmpty v)) = textual v.
Proof. table_ok. Qed.

Lemma entertainmentHours_ok :
  forall v, is_ok (entertainmentHours (orEmpty v)) = textual v.
Proof. table_ok. Qed.

Lemma cloudHours_ok :
  forall v, is_ok (cloudHours (orEmpty v)) = textual v.
Proof. table_ok. Qed.

Lemma aiInteractionsDaily_ok :
  forall v, is_ok (aiInteractionsDaily (orEmpty v)) = textual v.
Proof. table_ok. Qed.

Lemma sessionMinutes_ok :
  forall v, is_ok (sessionMinutes (orEmpty v)) = textual v.
Proof. table_ok. Qed.

Lemma aiTypeMultiplier_ok (d : Defaults) :
  forall v, is_ok (aiTypeMultiplier d (orEmpty v)) = textual v.
Proof. table_ok. Qed.

Lemma results_is_ok (form : gmap string JsVal) (d : Defaults) :
  is_ok (results form d)
  = forallb (fun k => textual (field form k)) categoricalFields.
Proof.
  unfold results, emissions, dataKgOf, aiKgOf, categoricalFields. simpl.
  rewrite <- academicHours_ok, <- entertainmentHours_ok, <- cloudHours_ok,
    <- aiInteractionsDaily_ok, <- sessionMinutes_ok,
    <- (aiTypeMultiplier_ok d).
  destruct (academicHours _); [| reflexivity].
  destruct (entertainmentHours _); [| reflexivity].
  destruct (cloudHours _); [| reflexivity].
  destruct (aiInteractionsDaily _); [| reflexivity].
  destruct (sessionMinutes _); [| reflexivity].
  destruct (aiTypeMultiplier d _); reflexivity.
Qed.

Lemma results_returns (form : gmap string JsVal) (d : Defaults) :
  (exists r, results form d = Ok r)
  <-> forall k, k ∈ categoricalFields -> textual (field form k) = true.
Proof.
  rewrite <- is_ok_exists, results_is_ok, forallb_forall.
  split; intros H k Hk; apply H.
  - apply list_elem_of_In. exact Hk.
  - apply list_elem_of_In. exact Hk.
Qed.

(** C8, as stated, fails: it is not whatever [aiUsageTypes] holds.
    With "0 - Don't use AI" both labels resolve to 0, yet with the
    number 5 in [aiUsageTypes] the lookup of the type factor, which
    precedes the test of the two amounts, throws and no [aiKg] is
    returned. *)
Lemma numeric_ai_type_throws :
  aiInteractionsDaily (orEmpty (field numericAiType "aiInteractionsPerDay"))
  = Ok 0
  /\ sessionMinutes (orEmpty (field numericAiType "typicalAiSessionMinutes"))
     = Ok 0
  /\ results numericAiType INDIAN_DEFAULTS = Throw TypeError
  /\ ~ exists r, results numericAiType INDIAN_DEFAULTS = Ok r.
Proof.
  repeat (split; [vm_compute; reflexivity |]).
  intros [r H]. vm_compute in H. discriminate.
Qed.

(** C8, amended.  When the interactions-per-day label or the
    session-length label resolves to 0 and the six categorical fields,
    [aiUsageTypes] among them, hold strings or values that [|| ""]
    replaces, the engine returns a breakdown and its [aiKg] is 0,
    whichever string [aiUsageTypes] holds; and whenever the engine
    returns, such a label gives [aiKg] = 0.  A label no pattern occurs
    in, the empty string, a missing field and the option
    "0 - Don't use AI" all resolve to 0. *)
Theorem aiKg_zero_when_unresolved :
  (forall (form : gmap string JsVal) (d : Defaults),
      (forall k, k ∈ categoricalFields -> textual (field form k) = true) ->
      aiInteractionsDaily (orEmpty (field form "aiInteractionsPerDay"))
      = Ok 0
      \/ sessionMinutes (orEmpty (field form "typicalAiSessionMinutes"))
         = Ok 0 ->
      exists r, results form d = Ok r /\ aiKg r == 0)
  /\ (forall (form : gmap string JsVal) (d : Defaults) (r : Breakdown),
        results form d = Ok r ->
        aiInteractionsDaily (orEmpty (field form "aiInteractionsPerDay"))
        = Ok 0
        \/ sessionMinutes (orEmpty (field form "typicalAiSessionMinutes"))
           = Ok 0 ->
        aiKg r == 0)
  /\ (forall s,
        unmatched ["1-5"; "6-15"; "16-30"; "31-50"; "50+"] s = true ->
        aiInteractionsDaily (orEmpty (JStr s)) = Ok 0)
  /\ (forall s,
        unmatched ["Less than 1"; "1-5"; "6-15"; "16-30"; "31-60";
                   "More than 1 hour"] s = true ->
        sessionMinutes (orEmpty (JStr s)) = Ok 0)
  /\ aiInteractionsDaily (orEmpty (JStr "0 - Don't use AI")) = Ok 0
  /\ aiInteractionsDaily (orEmpty (JStr "")) = Ok 0
  /\ sessionMinutes (orEmpty (JStr "")) = Ok 0
  /\ aiInteractionsDaily (orEmpty JUndefined) = Ok 0
  /\ sessionMinutes (orEmpty JUndefined) = Ok 0.
Proof.
  split; [| split; [exact aiKg_zero_if_returned |];
            split; [exact aiInteractionsDaily_unmatched |];
            split; [exact sessionMinutes_unmatched |]; repeat split].
  intros form d Ht Hz.
  destruct (proj2 (results_returns form d) Ht) as [r Hr].
  exists r. split; [exact Hr |].
  exact (aiKg_zero_if_returned form d r Hr Hz).
Qed.

(** C10, as stated, fails: a number is within the declared domain, and
    with the number 5 in [cloudHoursPerWeek] the engine of the
    Indian-defaults component throws. *)
Lemma numeric_label_throws :
  results numericCloudHours INDIAN_DEFAULTS = Throw TypeError
  /\ ~ exists r, results numericCloudHours INDIAN_DEFAULTS = Ok r.
Proof.
  split; [vm_compute; reflexivity |].
  intros [r H]. vm_compute in H. discriminate.
Qed.

(** C10, amended.  The engine of the Indian-defaults component returns a
    breakdown exactly when each of its six categorical fields holds a
    string or a value that [|| ""] replaces ([undefined], [false], 0,
    [NaN]); every other field may hold any string, number, boolean or
    [undefined], and so may the configuration. *)
Theorem engine_total_on_textual_labels (form : gmap string JsVal) :
  forall d,
    (exists r, results form d = Ok r)
    <-> forall k, k ∈ categoricalFields -> textual (field form k) = true.
Proof. intros d. apply results_returns. Qed.

End Totality.

(** ** The device amount is never negative *)

Section DeviceSign.

Variable form : gmap string JsVal.

Lemma fold_device_nonneg (f : DeviceEntry -> Q) (l : list DeviceEntry) :
  Forall (fun e => 0 <= contribution f e) l ->
  forall acc, 0 <= acc ->
    0 <= fold_left
           (fun deviceKg e =>
              if (Qltb 0 (count e) && Qltb 0 (duration e))%bool
              then deviceKg + f e else deviceKg) l acc.
Proof.
  induction 1 as [| e l He _ IH]; intros acc Hacc; simpl.
  - exact Hacc.
  - apply IH. unfold contribution in He.
    destruct (Qltb 0 (count e) && Qltb 0 (duration e))%bool; lra.
Qed.

Lemma deviceData_nonneg (f : DeviceEntry -> Q) (K : string -> Q) :
  (forall t, 0 <= K t) ->
  (forall e, f e == K (type e) * (count e * duration e)) ->
  0 <= forEachDevice f (deviceData form).
Proof.
  intros HK Hf. unfold forEachDevice.
  apply fold_device_nonneg; [| lra].
  apply List.Forall_forall. intros e _.
  apply (contribution_nonneg f (K (type e))); [apply HK | apply Hf].
Qed.

(** The guard [count > 0 && duration > 0] of the loop keeps negative
    counts and durations out of [deviceKg]. *)
Lemma deviceKg_nonneg :
  (forall d,
      nonneg_config (AppSimple.gridKgCO2PerKWh d) (AppSimple.devicePowerW d) ->
      0 <= deviceKg (AppSimple.results form d)
      /\ 0 <= deviceKg (AppExtended.results form d))
  /\ (forall d r,
      nonneg_config (IndianDefaults.gridKgCO2PerKWh d)
        (IndianDefaults.devicePowerW d) ->
      IndianDefaults.results form d = Ok r -> 0 <= deviceKg r).
Proof.
  assert (Hround : forall x, 0 <= x -> 0 <= round x).
  { intros x Hx. rewrite <- round_0. apply round_mono, Hx. }
  pose proof (getPowerSourceMultiplier_nonneg
                (field form "renewableEnergyUsage")) as Hm1.
  pose proof (getChargingMultiplier_nonneg (field form "chargingHabits"))
    as Hm2.
  split.
  - intros d [Hg Hp]. split; apply Hround.
    + unfold AppSimple.results, AppSimple.emissions, AppSimple.deviceKgOf.
      simpl. destruct (negb _); [| lra].
      apply deviceData_nonneg with
        (K := fun t => powerOf (AppSimple.devicePowerW d) t * (365 # 1000)
                       * AppSimple.gridKgCO2PerKWh d).
      * intros t. pose proof (powerOf_nonneg _ t Hp).
        repeat apply Qmult_le_0_compat; lra.
      * intros e. unfold AppSimple.deviceEmission. field.
    + unfold AppExtended.results, AppExtended.emissions,
        AppExtended.deviceKgOf.
      simpl. destruct (negb _); [| lra].
      apply deviceData_nonneg with
        (K := fun t =>
                powerOf (AppSimple.devicePowerW d) t * (365 # 1000)
                * AppSimple.gridKgCO2PerKWh d
                * getPowerSourceMultiplier (field form "renewableEnergyUsage")
                * getChargingMultiplier (field form "chargingHabits")).
      * intros t. pose proof (powerOf_nonneg _ t Hp).
        repeat apply Qmult_le_0_compat; lra.
      * intros e. unfold AppExtended.deviceEmission. field.
  - intros d r [Hg Hp] Hr.
    destruct (indian_results_inv form d r Hr) as (u & Hu & ->).
    unfold IndianDefaults.emissions in Hu.
    destruct (IndianDefaults.dataKgOf form d); [| discriminate].
    destruct (IndianDefaults.aiKgOf form d); [| discriminate].
    simpl in Hu. injection Hu as <-. simpl. apply Hround.
    unfold IndianDefaults.deviceKgOf.
    apply deviceData_nonneg with
      (K := fun t =>
              powerOf (IndianDefaults.devicePowerW d) t * (365 # 1000)
              * IndianDefaults.gridKgCO2PerKWh d
              * getPowerSourceMultiplier (field form "renewableEnergyUsage")
              * getChargingMultiplier (field form "chargingHabits")).
    + intros t. pose proof (powerOf_nonneg _ t Hp).
      repeat apply Qmult_le_0_compat; lra.
    + intros e. unfold IndianDefaults.deviceEmission. field.
Qed.

End DeviceSign.

(** ** The shipped configurations *)

Section ShippedDefaults.

Ltac power_table :=
  intros t p; simpl;
  repeat (rewrite lookup_insert; case_decide; [intros [= <-]; lra |]);
  rewrite lookup_empty; discriminate.

Lemma DEFAULTS_nonneg :
  nonneg_config (AppSimple.gridKgCO2PerKWh AppSimple.DEFAULTS)
    (AppSimple.devicePowerW AppSimple.DEFAULTS).
Proof. split; [simpl; lra | power_table]. Qed.

Lemma INDIAN_DEFAULTS_nonneg :
  nonneg_config
    (IndianDefaults.gridKgCO2PerKWh IndianDefaults.INDIAN_DEFAULTS)
    (IndianDefaults.devicePowerW IndianDefaults.INDIAN_DEFAULTS).
Proof. split; [simpl; lra | power_table]. Qed.

End ShippedDefaults.

(** ** The theorems at sample responses *)

Section Samples.

(** The option "31-50 times" contains ["1-5"]. *)
Lemma labels_containing_1_5_option :
  includes "1-5" "31-50 times" = true
  /\ maps_to_1_5_midpoint "31-50 times".
Proof.
  split; [reflexivity |].
  destruct labels_containing_1_5 as [H _].
  apply (H "31-50 times"). reflexivity.
Defined.

(** Two smartphones are listed and the box is ticked; the same with
    the string "false" in the flag. *)
Lemma noDevices_truthy_ticked :
  truthy (field tickedNoDevices "noDevices") = true
  /\ deviceKg (AppSimple.results tickedNoDevices AppSimple.DEFAULTS) == 0
  /\ deviceKg (AppExtended.results tickedNoDevices AppExtended.DEFAULTS)
     == 0.
Proof.
  split; [vm_compute; reflexivity |].
  destruct (noDevices_read_by_truthiness tickedNoDevices) as [H _].
  apply H. vm_compute. reflexivity.
Defined.

(** "0 - Don't use AI" with image generation and sessions of more than
    an hour. *)
Lemma aiKg_zero_without_ai_use :
  exists r,
    IndianDefaults.results noAiUse IndianDefaults.INDIAN_DEFAULTS = Ok r
    /\ aiKg r == 0.
Proof.
  destruct aiKg_zero_when_unresolved as [H _].
  apply (H noAiUse IndianDefaults.INDIAN_DEFAULTS).
  - intros k Hk. unfold categoricalFields in Hk.
    repeat (apply elem_of_cons in Hk as [-> | Hk];
            [vm_compute; reflexivity |]).
    apply elem_of_nil in Hk. destruct Hk.
  - left. vm_compute. reflexivity.
Defined.

(** One smartphone against two, each used four hours a day. *)
Lemma deviceKg_monotone_smartphones :
  deviceKg
    (AppSimple.results (<["smartphone" := JStr "1"]> fourHourPhone)
       AppSimple.DEFAULTS)
  <= deviceKg
       (AppSimple.results (<["smartphone" := JStr "2"]> fourHourPhone)
          AppSimple.DEFAULTS).
Proof.
  destruct (deviceKg_monotone fourHourPhone "smartphone"
              (JStr "1") (JStr "2")) as [H _].
  - apply (bool_decide_unpack _). vm_compute. exact I.
  - vm_compute. discriminate.
  - apply H. exact DEFAULTS_nonneg.
Defined.

(** Scenario C holds strings in its categorical fields. *)
Lemma engine_total_scenarioC :
  exists r,
    IndianDefaults.results scenarioC IndianDefaults.INDIAN_DEFAULTS = Ok r.
Proof.
  apply (engine_total_on_textual_labels scenarioC
           IndianDefaults.INDIAN_DEFAULTS).
  intros k Hk. unfold categoricalFields in Hk.
  repeat (apply elem_of_cons in Hk as [-> | Hk];
          [vm_compute; reflexivity |]).
  apply elem_of_nil in Hk. destruct Hk.
Defined.

End Samples.


(** * Further properties of the components *)

(** ** Rounding again *)

Section RoundingMore.

Lemma Math_round_inject_Z (n : Z) : Math_round (inject_Z n) = n.
Proof.
  destruct (Math_round_bounds (inject_Z n)) as [H1 H2].
  set (m := Math_round (inject_Z n)) in *. clearbody m.
  assert (Hlo : (m < n + 1)%Z).
  { rewrite Zlt_Qlt, inject_Z_plus. change (inject_Z 1) with (1 # 1). lra. }
  assert (Hhi : (n < m + 1)%Z).
  { rewrite Zlt_Qlt, inject_Z_plus. change (inject_Z 1) with (1 # 1). lra. }
  lia.
Qed.

Lemma Math_round_compat (x y : Q) : x == y -> Math_round x = Math_round y.
Proof. intros H. unfold Math_round. rewrite H. reflexivity. Qed.


End RoundingMore.

(** ** More on the device loop *)

Section DeviceLoopMore.

Lemma fold_device_scale (f g : DeviceEntry -> Q) (c : Q) (l : list DeviceEntry) :
  (forall e, g e == f e * c) ->
  forall acc acc', acc' == acc * c ->
    fold_left
      (fun deviceKg e =>
         if (Qltb 0 (count e) && Qltb 0 (duration e))%bool
         then deviceKg + g e else deviceKg) l acc'
    == fold_left
         (fun deviceKg e =>
            if (Qltb 0 (count e) && Qltb 0 (duration e))%bool
            then deviceKg + f e else deviceKg) l acc
       * c.
Proof.
  intros Hg. induction l as [| e l IH]; intros acc acc' Hacc; simpl.
  - exact Hacc.
  - apply IH.
    destruct (Qltb 0 (count e) && Qltb 0 (duration e))%bool; [| exact Hacc].
    rewrite Hacc, Hg. ring.
Qed.

Lemma forEachDevice_scale (f g : DeviceEntry -> Q) (c : Q)
    (l : list DeviceEntry) :
  (forall e, g e == f e * c) ->
  forEachDevice g l == forEachDevice f l * c.
Proof.
  intros Hg. unfold forEachDevice. apply fold_device_scale; [exact Hg | ring].
Qed.

Lemma fold_device_skip (f : DeviceEntry -> Q) (l : list DeviceEntry) :
  no_positive_entry l ->
  forall acc,
    fold_left
      (fun deviceKg e =>
         if (Qltb 0 (count e) && Qltb 0 (duration e))%bool
         then deviceKg + f e else deviceKg) l acc
    = acc.
Proof.
  induction 1 as [| e l He _ IH]; intros acc; simpl; [reflexivity |].
  rewrite IH.
  destruct He as [He | He]; apply Qltb_ge in He; rewrite He;
    [reflexivity | rewrite andb_false_r; reflexivity].
Qed.

Lemma forEachDevice_skip (f : DeviceEntry -> Q) (l : list DeviceEntry) :
  no_positive_entry l -> forEachDevice f l = 0.
Proof. intros H. unfold forEachDevice. apply fold_device_skip, H. Qed.

(** A device category counts only with a positive number of devices and
    a positive number of hours: when every category lacks one of them
    (empty, unreadable, zero or negative), [deviceKg] is 0. *)
Theorem deviceKg_zero_without_positive_entry (form : gmap string JsVal) :
  no_positive_entry (deviceData form) ->
  (forall d, deviceKg (AppSimple.results form d) == 0)
  /\ (forall d, deviceKg (AppExtended.results form d) == 0)
  /\ (forall d r, IndianDefaults.results form d = Ok r -> deviceKg r == 0).
Proof.
  intros H. split; [| split].
  - intros d. unfold AppSimple.results. simpl.
    unfold AppSimple.deviceKgOf. rewrite forEachDevice_skip by exact H.
    destruct (negb _); apply round_0.
  - intros d. unfold AppExtended.results. simpl.
    unfold AppExtended.deviceKgOf. rewrite forEachDevice_skip by exact H.
    destruct (negb _); apply round_0.
  - intros d r Hr.
    destruct (indian_results_inv form d r Hr) as (u & Hu & ->).
    unfold IndianDefaults.emissions in Hu.
    destruct (IndianDefaults.dataKgOf form d); [| discriminate].
    destruct (IndianDefaults.aiKgOf form d); [| discriminate].
    simpl in Hu. injection Hu as <-. simpl.
    unfold IndianDefaults.deviceKgOf. rewrite forEachDevice_skip by exact H.
    apply round_0.
Qed.

Lemma getPowerSourceMultiplier_range (v : JsVal) :
  0.2 <= getPowerSourceMultiplier v <= 1.
Proof.
  destruct v as [| b | n | s]; simpl; try lra.
  repeat (match goal with |- context [String.eqb ?a ?b] =>
            destruct (String.eqb a b) end); lra.
Qed.

Lemma getChargingMultiplier_range (v : JsVal) :
  0.8 <= getChargingMultiplier v <= 1.3.
Proof.
  destruct v as [| b | n | s]; simpl; try lra.
  repeat (match goal with |- context [String.eqb ?a ?b] =>
            destruct (String.eqb a b) end); lra.
Qed.

Lemma deviceMultiplier_range (form : gmap string JsVal) :
  0.16 <= deviceMultiplier form <= 1.3.
Proof.
  unfold deviceMultiplier.
  pose proof (getPowerSourceMultiplier_range
                (field form "renewableEnergyUsage")) as [H1 H2].
  pose proof (getChargingMultiplier_range (field form "chargingHabits"))
    as [H3 H4].
  set (p := getPowerSourceMultiplier _) in *.
  set (c := getChargingMultiplier _) in *. clearbody p c.
  split; nra.
Qed.

Lemma simple_deviceKgOf_nonneg (form : gmap string JsVal)
    (d : AppSimple.Defaults) :
  nonneg_config (AppSimple.gridKgCO2PerKWh d) (AppSimple.devicePowerW d) ->
  0 <= AppSimple.deviceKgOf form d.
Proof.
  intros [Hg Hp]. unfold AppSimple.deviceKgOf.
  destruct (negb _); [| lra].
  apply deviceData_nonneg with
    (K := fun t => powerOf (AppSimple.devicePowerW d) t * (365 # 1000)
                   * AppSimple.gridKgCO2PerKWh d).
  - intros t. pose proof (powerOf_nonneg _ t Hp).
    repeat apply Qmult_le_0_compat; lra.
  - intros e. unfold AppSimple.deviceEmission. field.
Qed.

Lemma extended_deviceKgOf_scaled (form : gmap string JsVal)
    (d : AppSimple.Defaults) :
  AppExtended.deviceKgOf form d
  == AppSimple.deviceKgOf form d * deviceMultiplier form.
Proof.
  unfold AppExtended.deviceKgOf, AppSimple.deviceKgOf.
  destruct (negb _); [| ring].
  apply forEachDevice_scale. intros e.
  unfold AppExtended.deviceEmission, AppSimple.deviceEmission,
    deviceMultiplier.
  ring.
Qed.

(** The second component of [App.js] computes the device amount of the
    first times the two multipliers; their product lies between 0.16 and
    1.3, and so does the ratio of the two unrounded device amounts. *)
Theorem extended_device_amount_is_scaled_simple (form : gmap string JsVal)
    (d : AppSimple.Defaults) :
  rawDeviceKg (AppExtended.emissions form d)
  == rawDeviceKg (AppSimple.emissions form d) * deviceMultiplier form
  /\ 0.16 <= deviceMultiplier form <= 1.3
  /\ (nonneg_config (AppSimple.gridKgCO2PerKWh d) (AppSimple.devicePowerW d) ->
      0.16 * rawDeviceKg (AppSimple.emissions form d)
      <= rawDeviceKg (AppExtended.emissions form d)
      <= 1.3 * rawDeviceKg (AppSimple.emissions form d)).
Proof.
  pose proof (extended_deviceKgOf_scaled form d) as Hs.
  pose proof (deviceMultiplier_range form) as Hm.
  split; [exact Hs | split; [exact Hm |]].
  intros Hd. simpl. rewrite Hs.
  pose proof (simple_deviceKgOf_nonneg form d Hd) as H0.
  set (S := AppSimple.deviceKgOf form d) in *.
  set (m := deviceMultiplier form) in *. clearbody S m.
  split; nra.
Qed.

End DeviceLoopMore.

(** ** The three categories are independent *)

Section Independence.

Variables (form : gmap string JsVal) (k : string) (w : JsVal).

Lemma simple_dataKgOf_other (d : AppSimple.Defaults) :
  k ∈ deviceFields ->
  AppSimple.dataKgOf (<[k := w]> form) d = AppSimple.dataKgOf form d.
Proof.
  intros Hk. unfold AppSimple.dataKgOf.
  rewrite !(other_numField form k Hk) by not_in_deviceFields. reflexivity.
Qed.

Lemma simple_aiKgOf_other :
  k ∈ deviceFields ->
  AppSimple.aiKgOf (<[k := w]> form) = AppSimple.aiKgOf form.
Proof.
  intros Hk. unfold AppSimple.aiKgOf.
  rewrite !(other_numField form k Hk) by not_in_deviceFields. reflexivity.
Qed.

Lemma usage_not_device (f : string) :
  k ∈ usageFields -> f ∈ deviceFields -> k <> f.
Proof.
  intros Hk Hf ->. revert Hk Hf. unfold usageFields, deviceFields.
  rewrite !elem_of_cons, !elem_of_nil. intros Hk Hf.
  repeat (destruct Hk as [-> | Hk];
          [repeat (destruct Hf as [Hf | Hf]; [discriminate Hf |]);
           exact Hf |]).
  exact Hk.
Qed.

Lemma deviceData_other :
  k ∈ usageFields -> deviceData (<[k := w]> form) = deviceData form.
Proof.
  intros Hk. unfold deviceData.
  rewrite !numField_insert_ne
    by (apply usage_not_device; [exact Hk | not_in_deviceFields]).
  reflexivity.
Qed.

Lemma usage_other_field (f : string) :
  k ∈ usageFields -> f ∉ usageFields ->
  field (<[k := w]> form) f = field form f.
Proof.
  intros Hk Hf. apply field_insert_ne. intros ->. exact (Hf Hk).
Qed.

(** A count or duration field moves [deviceKg] only, and a streaming,
    cloud, transfer or AI field leaves [deviceKg] where it was. *)
Theorem categories_independent :
  (k ∈ deviceFields ->
   (forall d,
       dataKg (AppSimple.results (<[k := w]> form) d)
       = dataKg (AppSimple.results form d)
       /\ aiKg (AppSimple.results (<[k := w]> form) d)
          = aiKg (AppSimple.results form d))
   /\ (forall d,
       dataKg (AppExtended.results (<[k := w]> form) d)
       = dataKg (AppExtended.results form d)
       /\ aiKg (AppExtended.results (<[k := w]> form) d)
          = aiKg (AppExtended.results form d))
   /\ (forall d r,
       IndianDefaults.results form d = Ok r ->
       exists r',
         IndianDefaults.results (<[k := w]> form) d = Ok r'
         /\ dataKg r' = dataKg r /\ aiKg r' = aiKg r))
  /\ (k ∈ usageFields ->
      (forall d,
          deviceKg (AppSimple.results (<[k := w]> form) d)
          = deviceKg (AppSimple.results form d))
      /\ (forall d,
          deviceKg (AppExtended.results (<[k := w]> form) d)
          = deviceKg (AppExtended.results form d))
      /\ (forall d r r',
          IndianDefaults.results form d = Ok r ->
          IndianDefaults.results (<[k := w]> form) d = Ok r' ->
          deviceKg r' = deviceKg r)).
Proof.
  split; intros Hk.
  - split; [| split].
    + intros d. unfold AppSimple.results. simpl.
      rewrite simple_dataKgOf_other, simple_aiKgOf_other by exact Hk.
      split; reflexivity.
    + intros d. unfold AppExtended.results. simpl.
      rewrite simple_dataKgOf_other, simple_aiKgOf_other by exact Hk.
      split; reflexivity.
    + intros d r Hr.
      destruct (indian_results_inv _ d r Hr) as (u & Hu & ->).
      unfold IndianDefaults.results, IndianDefaults.emissions in *.
      rewrite (indian_dataKgOf_other form k Hk),
        (indian_aiKgOf_other form k Hk).
      destruct (IndianDefaults.dataKgOf form d) as [dk | e]; [| discriminate].
      destruct (IndianDefaults.aiKgOf form d) as [ak | e]; [| discriminate].
      simpl in *. injection Hu as <-.
      eexists. split; [reflexivity |]. split; reflexivity.
  - split; [| split].
    + intros d. unfold AppSimple.results. simpl.
      unfold AppSimple.deviceKgOf.
      rewrite deviceData_other by exact Hk.
      rewrite (usage_other_field "noDevices") by (exact Hk || not_in_deviceFields).
      reflexivity.
    + intros d. unfold AppExtended.results. simpl.
      unfold AppExtended.deviceKgOf, AppExtended.deviceEmission.
      rewrite deviceData_other by exact Hk.
      rewrite (usage_other_field "noDevices"),
        (usage_other_field "renewableEnergyUsage"),
        (usage_other_field "chargingHabits")
        by (exact Hk || not_in_deviceFields).
      reflexivity.
    + intros d r r' Hr Hr'.
      destruct (indian_results_inv _ d r Hr) as (u & Hu & ->).
      destruct (indian_results_inv _ d r' Hr') as (u' & Hu' & ->).
      unfold IndianDefaults.emissions in *.
      destruct (IndianDefaults.dataKgOf form d); [| discriminate].
      destruct (IndianDefaults.aiKgOf form d); [| discriminate].
      destruct (IndianDefaults.dataKgOf (<[k := w]> form) d); [| discriminate].
      destruct (IndianDefaults.aiKgOf (<[k := w]> form) d); [| discriminate].
      simpl in *. injection Hu as <-. injection Hu' as <-. simpl.
      unfold IndianDefaults.deviceKgOf, IndianDefaults.deviceEmission.
      rewrite deviceData_other by exact Hk.
      rewrite (usage_other_field "renewableEnergyUsage"),
        (usage_other_field "chargingHabits")
        by (exact Hk || not_in_deviceFields).
      reflexivity.
Qed.

End Independence.

(** ** When the whole breakdown is non-negative *)

Section NonNegative.

Lemma round_nonneg (x : Q) : 0 <= x -> 0 <= round x.
Proof. intros Hx. rewrite <- round_0. apply round_mono, Hx. Qed.

Lemma breakdown_nonneg (u : Unrounded) :
  0 <= rawDeviceKg u -> 0 <= rawDataKg u -> 0 <= rawAiKg u ->
  nonneg_breakdown (breakdown u).
Proof.
  intros Hd Hg Ha. unfold nonneg_breakdown. simpl.
  repeat split; apply round_nonneg; lra.
Qed.

(** One arm of a chain decides the result or passes it on. *)
Lemma ifIncludes_inv {A : Type} (text : JsVal) (pat : string) (v : A)
    (k : result A) (q : A) :
  ifIncludes text pat v k = Ok q -> q = v \/ k = Ok q.
Proof.
  destruct text as [| b | n | s]; try discriminate.
  rewrite ifIncludes_str. destruct (includes pat s).
  - intros [= <-]. left. reflexivity.
  - intros H. right. exact H.
Qed.

Lemma academicHours_values (text : JsVal) (q : Q) :
  IndianDefaults.academicHours text = Ok q -> 0 <= q <= 65.
Proof.
  unfold IndianDefaults.academicHours. intros H.
  repeat (apply ifIncludes_inv in H as [-> | H]; [lra |]).
  injection H as <-. lra.
Qed.

Lemma entertainmentHours_values (text : JsVal) (q : Q) :
  IndianDefaults.entertainmentHours text = Ok q -> 0 <= q <= 80.
Proof.
  unfold IndianDefaults.entertainmentHours. intros H.
  repeat (apply ifIncludes_inv in H as [-> | H]; [lra |]).
  injection H as <-. lra.
Qed.

Lemma cloudHours_values (text : JsVal) (q : Q) :
  IndianDefaults.cloudHours text = Ok q -> 0 <= q <= 65.
Proof.
  unfold IndianDefaults.cloudHours. intros H.
  repeat (apply ifIncludes_inv in H as [-> | H]; [lra |]).
  injection H as <-. lra.
Qed.

Lemma aiInteractionsDaily_values (text : JsVal) (q : Q) :
  IndianDefaults.aiInteractionsDaily text = Ok q -> 0 <= q <= 75.
Proof.
  unfold IndianDefaults.aiInteractionsDaily. intros H.
  repeat (apply ifIncludes_inv in H as [-> | H]; [lra |]).
  injection H as <-. lra.
Qed.

Lemma sessionMinutes_values (text : JsVal) (q : Q) :
  IndianDefaults.sessionMinutes text = Ok q -> 0 <= q <= 90.
Proof.
  unfold IndianDefaults.sessionMinutes. intros H.
  repeat (apply ifIncludes_inv in H as [-> | H]; [lra |]).
  injection H as <-. lra.
Qed.

Lemma aiTypeMultiplier_nonneg (d : IndianDefaults.Defaults) (text : JsVal)
    (q : Q) :
  nonneg_indian d -> IndianDefaults.aiTypeMultiplier d text = Ok q -> 0 <= q.
Proof.
  intros (_ & _ & _ & H1 & H2 & H3 & H4 & H5 & H6).
  unfold IndianDefaults.aiTypeMultiplier. intros H.
  repeat (apply ifIncludes_inv in H as [-> | H]; [assumption |]).
  injection H as <-. assumption.
Qed.

Lemma queriesPerSession_range (m : Q) :
  0 <= m <= 90 ->
  1 <= IndianDefaults.queriesPerSession m <= 45.
Proof.
  intros [H0 H90]. unfold IndianDefaults.queriesPerSession, Math_max.
  assert (Hh : m / 2 == m * (1 # 2)) by field.
  destruct (Qltb 1 (m / 2)) eqn:E.
  - apply Qltb_lt in E. rewrite Hh in *. split; lra.
  - apply Qltb_ge in E. rewrite Hh in *. split; lra.
Qed.

Lemma aiKgFrom_nonneg (i m k : Q) :
  0 <= i <= 75 -> 0 <= m <= 90 -> 0 <= k ->
  0 <= IndianDefaults.aiKgFrom i m k.
Proof.
  intros Hi Hm Hk. unfold IndianDefaults.aiKgFrom.
  destruct (Qltb 0 i && Qltb 0 m)%bool; [| lra].
  pose proof (queriesPerSession_range m Hm) as Hq.
  repeat apply Qmult_le_0_compat; lra.
Qed.

Lemma indian_deviceKgOf_nonneg (form : gmap string JsVal)
    (d : IndianDefaults.Defaults) :
  nonneg_config (IndianDefaults.gridKgCO2PerKWh d)
    (IndianDefaults.devicePowerW d) ->
  0 <= IndianDefaults.deviceKgOf form d.
Proof.
  intros [Hg Hp].
  pose proof (getPowerSourceMultiplier_nonneg
                (field form "renewableEnergyUsage")) as Hm1.
  pose proof (getChargingMultiplier_nonneg (field form "chargingHabits"))
    as Hm2.
  unfold IndianDefaults.deviceKgOf.
  apply deviceData_nonneg with
    (K := fun t =>
            powerOf (IndianDefaults.devicePowerW d) t * (365 # 1000)
            * IndianDefaults.gridKgCO2PerKWh d
            * getPowerSourceMultiplier (field form "renewableEnergyUsage")
            * getChargingMultiplier (field form "chargingHabits")).
  - intros t. pose proof (powerOf_nonneg _ t Hp).
    repeat apply Qmult_le_0_compat; lra.
  - intros e. unfold IndianDefaults.deviceEmission. field.
Qed.

(** In the Indian-defaults component the only way to a negative amount is
    a negative number of gigabytes: with factors that are not negative
    and [largeTransfersPerMonth] reading as 0 or more, every amount of
    the returned breakdown is 0 or more, and [deviceKg] and [aiKg] are so
    whatever the response holds. *)
Theorem indian_breakdown_nonneg (form : gmap string JsVal)
    (d : IndianDefaults.Defaults) (r : Breakdown) :
  nonneg_indian d ->
  IndianDefaults.results form d = Ok r ->
  0 <= deviceKg r /\ 0 <= aiKg r
  /\ (0 <= numField form "largeTransfersPerMonth" -> nonneg_breakdown r).
Proof.
  intros Hd Hr.
  destruct (indian_results_inv form d r Hr) as (u & Hu & ->).
  unfold IndianDefaults.emissions, IndianDefaults.dataKgOf,
    IndianDefaults.aiKgOf in Hu.
  destruct (IndianDefaults.academicHours _) as [a |] eqn:Ea;
    [| discriminate].
  destruct (IndianDefaults.entertainmentHours _) as [e |] eqn:Ee;
    [| discriminate].
  destruct (IndianDefaults.cloudHours _) as [c |] eqn:Ec; [| discriminate].
  destruct (IndianDefaults.aiInteractionsDaily _) as [i |] eqn:Ei;
    [| discriminate].
  destruct (IndianDefaults.sessionMinutes _) as [m |] eqn:Em;
    [| discriminate].
  destruct (IndianDefaults.aiTypeMultiplier d _) as [k |] eqn:Ek;
    [| discriminate].
  simpl in Hu. injection Hu as <-.
  apply academicHours_values in Ea. apply entertainmentHours_values in Ee.
  apply cloudHours_values in Ec. apply aiInteractionsDaily_values in Ei.
  apply sessionMinutes_values in Em.
  apply (aiTypeMultiplier_nonneg d _ _ Hd) in Ek.
  pose proof (aiKgFrom_nonneg i m k Ei Em Ek) as Hai.
  destruct Hd as (Hcfg & Hgb & Hrate & _).
  pose proof (indian_deviceKgOf_nonneg form d Hcfg) as Hdev.
  split; [apply round_nonneg, Hdev |].
  split; [apply round_nonneg, Hai |].
  intros Ht. apply breakdown_nonneg; simpl; try assumption.
  unfold IndianDefaults.gbFromStreamingPerYear.
  apply Qmult_le_0_compat; [| exact Hgb].
  assert (0 <= (a + e)
               * IndianDefaults.rate_default
                   (IndianDefaults.gbPerStreamingHour d)).
  { apply Qmult_le_0_compat; lra. }
  lra.
Qed.

End NonNegative.

(** ** The option labels through the two engines *)

Section OptionLabels.

Import IndianDefaults.

(** What the Indian-defaults engine makes of every option the survey
    offers: the entertainment and session-length options each get their
    own midpoint, the three tables that start with ["1-5"] send their
    fifth option to 3, and the AI types "Other AI tools" and "Don't use
    AI" get the default factor. *)
Theorem option_midpoints :
  map (fun o => aiInteractionsDaily (orEmpty (JStr o))) aiInteractionOptions
  = map Ok [0; 3; 10; 23; 3; 75]
  /\ map (fun o => academicHours (orEmpty (JStr o))) academicOptions
     = map Ok [0; 3; 10; 23; 3; 65]
  /\ map (fun o => cloudHours (orEmpty (JStr o))) cloudOptions
     = map Ok [0; 3; 10; 23; 3; 65]
  /\ map (fun o => entertainmentHours (orEmpty (JStr o))) entertainmentOptions
     = map Ok [0; 5; 18; 33; 50; 80]
  /\ map (fun o => sessionMinutes (orEmpty (JStr o))) aiSessionOptions
     = map Ok [0.5; 3; 10; 23; 45; 90]
  /\ map (fun o => aiTypeMultiplier INDIAN_DEFAULTS (orEmpty (JStr o)))
       aiUsageOptions
     = map Ok [0.0001; 0.02; 0.0002; 0.0001; 0.005; 0.0005; 0.0005].
Proof. repeat split. Qed.

Lemma option_label_not_a_number (o : string) :
  o ∈ usageOptionLabels -> StringToNumber o = NaN.
Proof.
  unfold usageOptionLabels, aiInteractionOptions, aiSessionOptions,
    academicOptions, entertainmentOptions, cloudOptions. simpl.
  rewrite !elem_of_cons, elem_of_nil. intros H.
  repeat (destruct H as [-> | H]; [vm_compute; reflexivity |]).
  destruct H.
Qed.

Lemma option_numField (form : gmap string JsVal) (k o : string) :
  field form k = JStr o -> o ∈ usageOptionLabels -> numField form k = 0.
Proof.
  intros Hk Ho. unfold numField. rewrite Hk. simpl.
  rewrite (option_label_not_a_number o Ho). reflexivity.
Qed.


Lemma aiTypeMultiplier_shipped (text : JsVal) (q : Q) :
  aiTypeMultiplier INDIAN_DEFAULTS text = Ok q -> 0 <= q <= 0.02.
Proof.
  unfold aiTypeMultiplier. simpl. intros H.
  repeat (apply ifIncludes_inv in H as [-> | H]; [lra |]).
  injection H as <-. lra.
Qed.

Lemma aiKgFrom_bound (i m k : Q) :
  0 <= i <= 75 -> 0 <= m <= 90 -> 0 <= k <= 0.02 ->
  aiKgFrom i m k <= 24637.5.
Proof.
  intros Hi Hm Hk. unfold aiKgFrom.
  destruct (Qltb 0 i && Qltb 0 m)%bool; [| lra].
  pose proof (queriesPerSession_range m Hm) as Hq.
  set (q := queriesPerSession m) in *. clearbody q.
  assert (Hiq : 0 <= i * q <= 3375) by (split; nra).
  set (p := i * q) in *. clearbody p.
  nra.
Qed.

(** With the shipped factors the AI amount of the Indian-defaults
    component never exceeds 24637.5 kg a year, which the heaviest options
    ("50+ times", "More than 1 hour", image generation) reach. *)
Theorem indian_aiKg_at_most (form : gmap string JsVal) (r : Breakdown) :
  results form INDIAN_DEFAULTS = Ok r ->
  aiKg r <= 24637.5
  /\ exists r',
       results heavyUse INDIAN_DEFAULTS = Ok r' /\ aiKg r' == 24637.5.
Proof.
  intros Hr. split.
  - destruct (indian_results_inv form _ r Hr) as (u & Hu & ->).
    unfold emissions, aiKgOf in Hu.
    destruct (dataKgOf form INDIAN_DEFAULTS); [| discriminate].
    simpl in Hu.
    destruct (aiInteractionsDaily _) as [i |] eqn:Ei; [| discriminate].
    destruct (sessionMinutes _) as [m |] eqn:Em; [| discriminate].
    destruct (aiTypeMultiplier INDIAN_DEFAULTS _) as [k |] eqn:Ek;
      [| discriminate].
    simpl in Hu. injection Hu as <-. simpl.
    apply aiInteractionsDaily_values in Ei.
    apply sessionMinutes_values in Em.
    apply aiTypeMultiplier_shipped in Ek.
    assert (Hmax : round 24637.5 == 24637.5) by reflexivity.
    rewrite <- Hmax. apply round_mono, aiKgFrom_bound; assumption.
  - eexists. split; vm_compute; reflexivity.
Qed.

End OptionLabels.

(** ** More on the currency conversion *)

Section CurrencyMore.

Lemma round_null (x : Q) : x == 0 -> round x == 0.
Proof. intros H. rewrite H. apply round_0. Qed.

(** For a price that is not negative, a larger footprint never converts
    to a smaller amount, a footprint of 0 or more never to a negative
    amount, and an argument that does not read as a number (or reads as
    0) converts to 0. *)
Theorem kgToInr_monotone :
  (forall d k k',
      0 <= AppSimple.inrPerTonneCO2 d -> k <= k' ->
      AppSimple.kgToInr d (JNum (Finite k))
      <= AppSimple.kgToInr d (JNum (Finite k')))
  /\ (forall d k k',
      0 <= IndianDefaults.inrPerTonneCO2 d -> k <= k' ->
      IndianDefaults.kgToInr d (JNum (Finite k))
      <= IndianDefaults.kgToInr d (JNum (Finite k')))
  /\ (forall d v,
      orZero (Number v) == 0 -> AppSimple.kgToInr d v == 0)
  /\ (forall d v,
      orZero (Number v) == 0 -> IndianDefaults.kgToInr d v == 0).
Proof.
  split; [| split; [| split]].
  - intros d k k' Hp Hk. apply round_mono.
    unfold AppSimple.inrUnrounded. simpl.
    set (p := AppSimple.inrPerTonneCO2 d) in *. clearbody p.
    assert (H : (k' - k) * p >= 0) by (apply Qmult_le_0_compat; lra).
    assert (E1 : k / 1000 * p == k * p * (1 # 1000)) by field.
    assert (E2 : k' / 1000 * p == k' * p * (1 # 1000)) by field.
    rewrite E1, E2. lra.
  - intros d k k' Hp Hk. apply round_mono.
    unfold IndianDefaults.inrUnrounded. simpl.
    set (p := IndianDefaults.inrPerTonneCO2 d) in *. clearbody p.
    assert (H : (k' - k) * p >= 0) by (apply Qmult_le_0_compat; lra).
    assert (E1 : k / 1000 * p * 1.5 == k * p * (15 # 10000)) by field.
    assert (E2 : k' / 1000 * p * 1.5 == k' * p * (15 # 10000)) by field.
    rewrite E1, E2. lra.
  - intros d v Hv. unfold AppSimple.kgToInr, AppSimple.inrUnrounded.
    apply round_null. rewrite Hv. field.
  - intros d v Hv. unfold IndianDefaults.kgToInr, IndianDefaults.inrUnrounded.
    apply round_null. rewrite Hv. field.
Qed.

End CurrencyMore.

(** ** [getCityState] *)

Section CityState.

Lemma is_ws2_inv (a b : ascii) :
  is_ws2 a b = true -> nat_of_ascii a = 194%nat /\ nat_of_ascii b = 160%nat.
Proof.
  unfold is_ws2. rewrite andb_true_iff, !Nat.eqb_eq. tauto.
Qed.

Lemma is_ws3_inv (a b c : ascii) :
  is_ws3 a b c = true ->
  (225 <= nat_of_ascii a /\ 128 <= nat_of_ascii b
   /\ 128 <= nat_of_ascii c)%nat.
Proof.
  unfold is_ws3, ws3_table. cbn [existsb].
  rewrite !orb_true_iff, !andb_true_iff, !Nat.eqb_eq, !Nat.leb_le. lia.
Qed.

Lemma is_ws2_ascii_l (a b : ascii) :
  (nat_of_ascii a < 128)%nat -> is_ws2 a b = false.
Proof.
  intros H. destruct (is_ws2 a b) eqn:E; [| reflexivity].
  apply is_ws2_inv in E. lia.
Qed.

Lemma is_ws2_ascii_r (a b : ascii) :
  (nat_of_ascii b < 128)%nat -> is_ws2 a b = false.
Proof.
  intros H. destruct (is_ws2 a b) eqn:E; [| reflexivity].
  apply is_ws2_inv in E. lia.
Qed.

Lemma is_ws3_ascii (a b c : ascii) :
  (nat_of_ascii a < 128 \/ nat_of_ascii b < 128
   \/ nat_of_ascii c < 128)%nat ->
  is_ws3 a b c = false.
Proof.
  intros H. destruct (is_ws3 a b c) eqn:E; [| reflexivity].
  apply is_ws3_inv in E. lia.
Qed.

Lemma drop_ws_clean_upto (n : nat) :
  forall l, (length l <= n)%nat -> starts_ws (drop_ws l) = false.
Proof.
  induction n as [| n IH]; intros l Hl.
  - destruct l; [reflexivity | simpl in Hl; lia].
  - destruct l as [| c1 r1]; [reflexivity |]. cbn [drop_ws].
    destruct (is_ws c1) eqn:E1; [apply IH; simpl in *; lia |].
    destruct r1 as [| c2 r2].
    { cbn [starts_ws]. rewrite E1. reflexivity. }
    destruct (is_ws2 c1 c2) eqn:E2; [apply IH; simpl in *; lia |].
    destruct r2 as [| c3 r3].
    { cbn [starts_ws]. rewrite E1, E2. reflexivity. }
    destruct (is_ws3 c1 c2 c3) eqn:E3; [apply IH; simpl in *; lia |].
    cbn [starts_ws]. rewrite E1, E2, E3. reflexivity.
Qed.

Lemma drop_ws_clean (l : list ascii) : starts_ws (drop_ws l) = false.
Proof. apply (drop_ws_clean_upto (length l)). lia. Qed.

Lemma drop_ws_end_clean_upto (n : nat) :
  forall l, (length l <= n)%nat -> ends_ws (drop_ws_end l) = false.
Proof.
  induction n as [| n IH]; intros l Hl.
  - destruct l; [reflexivity | simpl in Hl; lia].
  - destruct l as [| c1 r1]; [reflexivity |]. cbn [drop_ws_end].
    destruct (is_ws c1) eqn:E1; [apply IH; simpl in *; lia |].
    destruct r1 as [| c2 r2].
    { cbn [ends_ws]. rewrite E1. reflexivity. }
    destruct (is_ws2 c2 c1) eqn:E2; [apply IH; simpl in *; lia |].
    destruct r2 as [| c3 r3].
    { cbn [ends_ws]. rewrite E1, E2. reflexivity. }
    destruct (is_ws3 c3 c2 c1) eqn:E3; [apply IH; simpl in *; lia |].
    cbn [ends_ws]. rewrite E1, E2, E3. reflexivity.
Qed.

Lemma drop_ws_end_clean (l : list ascii) :
  ends_ws (drop_ws_end l) = false.
Proof. apply (drop_ws_end_clean_upto (length l)). lia. Qed.

(** What [drop_ws_end] returns is a suffix of its argument. *)
Lemma drop_ws_end_split_upto (n : nat) :
  forall l, (length l <= n)%nat -> exists w, l = w ++ drop_ws_end l.
Proof.
  induction n as [| n IH]; intros l Hl.
  - destruct l; [exists []; reflexivity | simpl in Hl; lia].
  - destruct l as [| c1 r1]; [exists []; reflexivity |].
    cbn [drop_ws_end].
    destruct (is_ws c1).
    { destruct (IH r1) as [w Hw]; [simpl in *; lia |].
      exists (c1 :: w). simpl. f_equal. exact Hw. }
    destruct r1 as [| c2 r2]; [exists []; reflexivity |].
    destruct (is_ws2 c2 c1).
    { destruct (IH r2) as [w Hw]; [simpl in *; lia |].
      exists (c1 :: c2 :: w). simpl. do 2 f_equal. exact Hw. }
    destruct r2 as [| c3 r3]; [exists []; reflexivity |].
    destruct (is_ws3 c3 c2 c1).
    { destruct (IH r3) as [w Hw]; [simpl in *; lia |].
      exists (c1 :: c2 :: c3 :: w). simpl. do 3 f_equal. exact Hw. }
    exists []. reflexivity.
Qed.

Lemma drop_ws_end_split (l : list ascii) :
  exists w, l = w ++ drop_ws_end l.
Proof. apply (drop_ws_end_split_upto (length l)). lia. Qed.

(** A text that starts with no white space has no prefix that does. *)
Lemma starts_ws_app_l (x y : list ascii) :
  starts_ws (x ++ y) = false -> starts_ws x = false.
Proof.
  destruct x as [| c1 [| c2 [| c3 r3]]]; cbn [app starts_ws];
    [reflexivity | | |].
  - intros H. apply orb_false_elim in H as [-> _]. reflexivity.
  - intros H. apply orb_false_elim in H as [-> H].
    apply orb_false_elim in H as [-> _]. reflexivity.
  - auto.
Qed.

(** Appending text that begins with two ASCII characters to a non-empty
    text leaves its start as it was, and likewise at the end. *)
Lemma starts_ws_app_ascii (x y : list ascii) (b1 b2 : ascii) :
  starts_ws x = false -> x <> [] ->
  (nat_of_ascii b1 < 128)%nat -> (nat_of_ascii b2 < 128)%nat ->
  starts_ws (x ++ b1 :: b2 :: y) = false.
Proof.
  intros Hx Nx H1 H2.
  destruct x as [| c1 [| c2 [| c3 r3]]]; [contradiction | | |];
    cbn [app starts_ws] in *.
  - apply orb_false_elim in Hx as [-> _].
    rewrite is_ws2_ascii_r by exact H1.
    rewrite is_ws3_ascii by lia. reflexivity.
  - apply orb_false_elim in Hx as [-> Hx].
    apply orb_false_elim in Hx as [-> _].
    rewrite is_ws3_ascii by lia. reflexivity.
  - exact Hx.
Qed.

Lemma ends_ws_app_ascii (x y : list ascii) (b1 b2 : ascii) :
  ends_ws x = false -> x <> [] ->
  (nat_of_ascii b1 < 128)%nat -> (nat_of_ascii b2 < 128)%nat ->
  ends_ws (x ++ b1 :: b2 :: y) = false.
Proof.
  intros Hx Nx H1 H2.
  destruct x as [| c1 [| c2 [| c3 r3]]]; [contradiction | | |];
    cbn [app ends_ws] in *.
  - apply orb_false_elim in Hx as [-> _].
    rewrite is_ws2_ascii_l by exact H1.
    rewrite is_ws3_ascii by lia. reflexivity.
  - apply orb_false_elim in Hx as [-> Hx].
    apply orb_false_elim in Hx as [-> _].
    rewrite is_ws3_ascii by lia. reflexivity.
  - exact Hx.
Qed.

Lemma trim_clean (l : list ascii) :
  starts_ws (trim l) = false /\ ends_ws (rev (trim l)) = false.
Proof.
  unfold trim. split.
  - destruct (drop_ws_end_split (rev (drop_ws l))) as [w Hw].
    set (b := drop_ws_end (rev (drop_ws l))) in *.
    apply (starts_ws_app_l (rev b) (rev w)).
    rewrite <- rev_app_distr, <- Hw, rev_involutive.
    apply drop_ws_clean.
  - rewrite rev_involutive. apply drop_ws_end_clean.
Qed.

Lemma list_ascii_of_string_app (a b : string) :
  list_ascii_of_string (a ++ b)
  = list_ascii_of_string a ++ list_ascii_of_string b.
Proof.
  induction a as [| c a IH]; [reflexivity |].
  rewrite append_cons. simpl. f_equal. exact IH.
Qed.

Lemma call_trim_trimmed (v : JsVal) (s : string) :
  call_trim v = Ok s -> trimmed s.
Proof.
  destruct v as [| b | n | t]; try discriminate.
  intros [= <-]. unfold trimmed.
  rewrite list_ascii_of_string_of_list_ascii. apply trim_clean.
Qed.

Lemma nonEmpty_list (s : string) :
  nonEmpty s = true -> list_ascii_of_string s <> [].
Proof. destruct s; [discriminate | discriminate]. Qed.

Lemma nonEmpty_false (s : string) : nonEmpty s = false -> s = ""%string.
Proof. destruct s; [reflexivity | discriminate]. Qed.

Lemma joined_trimmed (c s : string) :
  trimmed c -> trimmed s -> nonEmpty c = true -> nonEmpty s = true ->
  trimmed (c ++ ", " ++ s).
Proof.
  intros [Hc _] [_ Hs] Nc Ns. unfold trimmed.
  rewrite !list_ascii_of_string_app. split.
  - apply starts_ws_app_ascii;
      [exact Hc | apply nonEmpty_list, Nc | vm_compute; lia ..].
  - rewrite !rev_app_distr, <- app_assoc.
    apply ends_ws_app_ascii; [exact Hs | | vm_compute; lia ..].
    intros E. apply (f_equal (@rev ascii)) in E.
    rewrite rev_involutive in E. exact (nonEmpty_list s Ns E).
Qed.

Lemma call_trim_ok (v : JsVal) :
  is_ok (call_trim (orEmpty v)) = textual v.
Proof.
  destruct (textual v) eqn:Ht.
  - apply orEmpty_textual in Ht as [s ->]. reflexivity.
  - destruct (orEmpty v) as [| b | n | s] eqn:E; try reflexivity.
    assert (textual v = true) by (apply orEmpty_textual; eauto).
    congruence.
Qed.

(** [getCityState] throws exactly when [city] or [state] holds [true]
    or a number other than 0 and [NaN].  Otherwise its result never
    starts or ends with a white-space character, is the trimmed city and
    the trimmed state joined by a comma and a space when neither is
    blank, and is empty exactly when both are blank. *)
Theorem getCityState_result (form : gmap string JsVal) :
  is_ok (getCityState form)
  = (textual (field form "city") && textual (field form "state"))%bool
  /\ forall r,
       getCityState form = Ok r ->
       trimmed r
       /\ (r = ""%string
           <-> blank (field form "city") /\ blank (field form "state"))
       /\ (forall c s,
              call_trim (orEmpty (field form "city")) = Ok c ->
              call_trim (orEmpty (field form "state")) = Ok s ->
              c <> ""%string -> s <> ""%string ->
              r = (c ++ ", " ++ s)%string).
Proof.
  unfold getCityState, blank.
  pose proof (call_trim_ok (field form "city")) as Hc.
  pose proof (call_trim_ok (field form "state")) as Hs.
  pose proof (call_trim_trimmed (orEmpty (field form "city"))) as Tc.
  pose proof (call_trim_trimmed (orEmpty (field form "state"))) as Ts.
  destruct (call_trim (orEmpty (field form "city"))) as [c | e];
    destruct (call_trim (orEmpty (field form "state"))) as [s | e'];
    simpl in *; rewrite <- Hc, <- Hs.
  - split.
    + destruct (nonEmpty c), (nonEmpty s); reflexivity.
    + intros r Hr. specialize (Tc c eq_refl). specialize (Ts s eq_refl).
      destruct (nonEmpty c) eqn:Nc; destruct (nonEmpty s) eqn:Ns;
        simpl in Hr; injection Hr as <-.
      * split; [apply joined_trimmed; assumption |]. split.
        -- split; [destruct c; discriminate |].
           intros [[= ->] _]. discriminate.
        -- intros c' s' [= <-] [= <-] _ _. reflexivity.
      * apply nonEmpty_false in Ns. subst s.
        split; [exact Tc |]. split.
        -- split; [intros ->; discriminate |].
           intros [[= ->] _]. discriminate.
        -- intros c' s' _ [= <-] _ Hne. contradiction.
      * apply nonEmpty_false in Nc. subst c.
        split; [exact Ts |]. split.
        -- split; [intros ->; discriminate |].
           intros [_ [= ->]]. discriminate.
        -- intros c' s' [= <-] _ Hne. contradiction.
      * apply nonEmpty_false in Nc. apply nonEmpty_false in Ns. subst.
        split; [split; reflexivity |]. split.
        -- split; [intros _; split; reflexivity | reflexivity].
        -- intros c' s' [= <-] _ Hne. contradiction.
  - split; [reflexivity | discriminate].
  - split; [reflexivity | discriminate].
  - split; [reflexivity | discriminate].
Qed.

End CityState.

(** ** Participant ids and download names *)

Section Identity.

Lemma list_ascii_of_string_inj (a b : string) :
  list_ascii_of_string a = list_ascii_of_string b -> a = b.
Proof.
  intros H. rewrite <- (string_of_list_ascii_of_string a),
    <- (string_of_list_ascii_of_string b), H. reflexivity.
Qed.

Lemma append_cancel_r (a b c : string) :
  (a ++ c)%string = (b ++ c)%string -> a = b.
Proof.
  intros H. apply list_ascii_of_string_inj.
  apply (f_equal list_ascii_of_string) in H.
  rewrite !list_ascii_of_string_app in H.
  exact (app_inv_tail _ _ _ H).
Qed.

Lemma append_cancel_l (a b c : string) :
  (a ++ b)%string = (a ++ c)%string -> b = c.
Proof.
  induction a as [| x a IH]; [auto |].
  rewrite !append_cons. intros [= H]. exact (IH H).
Qed.

Lemma generateParticipantId_inj (t t' : Z) :
  generateParticipantId t = generateParticipantId t' -> t = t'.
Proof.
  unfold generateParticipantId. intros H.
  change ("P" ++ pretty t)%string with (String "P" (pretty t)) in H.
  change ("P" ++ pretty t')%string with (String "P" (pretty t')) in H.
  injection H as H. exact (pretty_Z_inj _ _ H).
Qed.

(** The participant id and the name of the downloaded file are decided
    by the clock reading alone: two exports carry the same id, or get the
    same file name, exactly when [Date.now()] returned the same
    millisecond for both, whoever the respondent is. *)
Theorem export_identity_is_the_clock
    (form form' : gmap string JsVal) (results results' : Breakdown)
    (now now' : Z) (iso iso' : string)
    (data data' : ExportData) (name name' : string) :
  downloadJSON form results now iso = Ok (data, name) ->
  downloadJSON form' results' now' iso' = Ok (data', name') ->
  (participantId data = participantId data' <-> now = now')
  /\ (name = name' <-> now = now')
  /\ name = ("survey_" ++ generateParticipantId now ++ ".json")%string.
Proof.
  unfold downloadJSON, exportData. intros H H'.
  destruct (getCityState form) as [cs | e]; [| discriminate].
  destruct (getCityState form') as [cs' | e]; [| discriminate].
  simpl in H, H'. injection H as <- <-. injection H' as <- <-. simpl.
  split; [| split; [| reflexivity]].
  - split; [apply generateParticipantId_inj | intros ->; reflexivity].
  - split; [| intros ->; reflexivity].
    intros H. apply generateParticipantId_inj.
    apply (append_cancel_r _ _ ".json").
    change ("survey_" ++ generateParticipantId now ++ ".json")%string
      with ("survey_" ++ (generateParticipantId now ++ ".json"))%string in H.
    exact (append_cancel_l "survey_" _ _ H).
Qed.

End Identity.

(** ** [handleSubmit] *)

Section Submit.

Lemma exportData_ok (form : gmap string JsVal) (results : Breakdown)
    (now : Z) (iso : string) :
  is_ok (exportData form results now iso) = is_ok (getCityState form).
Proof.
  unfold exportData. destruct (getCityState form); reflexivity.
Qed.

(** Without consent [handleSubmit] only sets the consent message: it
    sends nothing and cannot throw.  With consent it issues at most one
    request, a POST of the export object to the webhook, and it does so
    exactly when a webhook URL is set; the failure message appears only
    after such a request was rejected, the success message otherwise. *)
Theorem handleSubmit_gate (form : gmap string JsVal) (results : Breakdown)
    (webhookUrl : string) (now : Z) (iso : string) (net : FetchOutcome) :
  (truthy (field form "consent") = false ->
   AppSubmit.handleSubmit form results webhookUrl now iso net
   = Ok {| message := Some consentMessage; requests := [] |})
  /\ (forall sub,
        AppSubmit.handleSubmit form results webhookUrl now iso net = Ok sub ->
        truthy (field form "consent") = true ->
        (exists data,
            exportData form results now iso = Ok data
            /\ requests sub
               = if nonEmpty webhookUrl
                 then [ {| requestUrl := webhookUrl;
                           requestMethod := "POST";
                           requestBody := data |} ]
                 else [])
        /\ message sub
           = Some (if (nonEmpty webhookUrl
                       && match net with Rejects => true | _ => false end)%bool
                   then AppSubmit.failureMessage
                   else AppSubmit.successMessage))
  /\ (is_ok (AppSubmit.handleSubmit form results webhookUrl now iso net)
      = (negb (truthy (field form "consent"))
         || is_ok (getCityState form))%bool)
  /\ requests (IndianSubmit.handleSubmit form) = []
  /\ message (IndianSubmit.handleSubmit form)
     = Some (if truthy (field form "consent")
             then IndianSubmit.successMessage else consentMessage).
Proof.
  unfold AppSubmit.handleSubmit, IndianSubmit.handleSubmit.
  pose proof (exportData_ok form results now iso) as Hok.
  destruct (truthy (field form "consent")); simpl.
  - split; [discriminate |]. split; [| split; [| split; reflexivity]].
    + intros sub Hsub _.
      destruct (exportData form results now iso) as [data | e];
        [| discriminate].
      simpl in Hsub.
      destruct (nonEmpty webhookUrl); [destruct net |];
        injection Hsub as <-; simpl; split; eauto.
    + rewrite <- Hok.
      destruct (exportData form results now iso) as [data | e];
        [| reflexivity].
      simpl. destruct (nonEmpty webhookUrl); [destruct net |]; reflexivity.
  - split; [reflexivity |]. split; [| split; [| split]]; try reflexivity.
    intros sub _ [=].
Qed.

End Submit.

(** ** Monotonicity of the data amount in the typed transfers *)

Section TransfersMonotone.

Variables (form : gmap string JsVal) (v v' : JsVal).
Hypothesis Hle : orZero (Number v) <= orZero (Number v').

Lemma transfers_read (w : JsVal) :
  numField (<["largeTransfersPerMonth" := w]> form) "largeTransfersPerMonth"
  = orZero (Number w).
Proof. unfold numField. rewrite field_insert_eq. reflexivity. Qed.

Lemma simple_dataKgOf_transfers (d : AppSimple.Defaults) :
  0 <= AppSimple.kgCO2PerGB d ->
  AppSimple.dataKgOf (<["largeTransfersPerMonth" := v]> form) d
  <= AppSimple.dataKgOf (<["largeTransfersPerMonth" := v']> form) d.
Proof using Hle.
  intros Hg. unfold AppSimple.dataKgOf.
  rewrite !transfers_read.
  rewrite !(numField_insert_ne form "largeTransfersPerMonth")
    by discriminate.
  set (g := AppSimple.gbFromStreamingPerYear _ _). clearbody g.
  set (c := AppSimple.kgCO2PerGB d) in *. clearbody c.
  set (x := orZero (Number v)) in *. set (y := orZero (Number v')) in *.
  clearbody x y.
  assert (H : 0 <= (y - x) * 12 * c).
  { apply Qmult_le_0_compat; lra. }
  lra.
Qed.

Lemma indian_dataKgOf_transfers (d : IndianDefaults.Defaults) (q : Q) :
  0 <= IndianDefaults.kgCO2PerGB d ->
  IndianDefaults.dataKgOf (<["largeTransfersPerMonth" := v]> form) d = Ok q ->
  exists q',
    IndianDefaults.dataKgOf (<["largeTransfersPerMonth" := v']> form) d
    = Ok q'
    /\ q <= q'.
Proof using Hle.
  intros Hg. unfold IndianDefaults.dataKgOf.
  rewrite !transfers_read.
  rewrite !(field_insert_ne form "largeTransfersPerMonth")
    by discriminate.
  destruct (IndianDefaults.academicHours _) as [a |]; [| discriminate].
  destruct (IndianDefaults.entertainmentHours _) as [e |]; [| discriminate].
  destruct (IndianDefaults.cloudHours _) as [c |]; [| discriminate].
  simpl. intros [= <-]. eexists. split; [reflexivity |].
  set (g := IndianDefaults.gbFromStreamingPerYear _ _). clearbody g.
  set (k := IndianDefaults.kgCO2PerGB d) in *. clearbody k.
  set (x := orZero (Number v)) in *. set (y := orZero (Number v')) in *.
  clearbody x y.
  assert (H : 0 <= (y - x) * 12 * k).
  { apply Qmult_le_0_compat; lra. }
  lra.
Qed.

Lemma indian_aiKgOf_transfers (w : JsVal) (d : IndianDefaults.Defaults) :
  IndianDefaults.aiKgOf (<["largeTransfersPerMonth" := w]> form) d
  = IndianDefaults.aiKgOf form d.
Proof.
  unfold IndianDefaults.aiKgOf.
  rewrite !(field_insert_ne form "largeTransfersPerMonth")
    by discriminate.
  reflexivity.
Qed.

(** Typing a larger number of gigabytes into [largeTransfersPerMonth]
    never lowers the returned [dataKg], for a per-gigabyte factor that is
    not negative. *)
Theorem dataKg_monotone_in_transfers :
  (forall d,
      0 <= AppSimple.kgCO2PerGB d ->
      dataKg (AppSimple.results (<["largeTransfersPerMonth" := v]> form) d)
      <= dataKg
           (AppSimple.results (<["largeTransfersPerMonth" := v']> form) d)
      /\ dataKg
           (AppExtended.results (<["largeTransfersPerMonth" := v]> form) d)
         <= dataKg
              (AppExtended.results
                 (<["largeTransfersPerMonth" := v']> form) d))
  /\ (forall d r,
      0 <= IndianDefaults.kgCO2PerGB d ->
      IndianDefaults.results (<["largeTransfersPerMonth" := v]> form) d
      = Ok r ->
      exists r',
        IndianDefaults.results (<["largeTransfersPerMonth" := v']> form) d
        = Ok r'
        /\ dataKg r <= dataKg r').
Proof using Hle.
  split.
  - intros d Hg.
    split; apply round_mono, simple_dataKgOf_transfers, Hg.
  - intros d r Hg Hr.
    destruct (indian_results_inv _ d r Hr) as (u & Hu & ->).
    unfold IndianDefaults.results, IndianDefaults.emissions in *.
    rewrite indian_aiKgOf_transfers in *.
    destruct (IndianDefaults.dataKgOf
                (<["largeTransfersPerMonth" := v]> form) d)
      as [q |] eqn:Eq; [| discriminate].
    destruct (indian_dataKgOf_transfers d q Hg Eq) as (q' & Eq' & Hq).
    rewrite Eq'.
    destruct (IndianDefaults.aiKgOf form d) as [ak |]; [| discriminate].
    simpl in *. injection Hu as <-.
    eexists. split; [reflexivity |]. simpl. apply round_mono, Hq.
Qed.

End TransfersMonotone.

(** ** The further properties at sample responses *)

Section SamplesMore.

Lemma INDIAN_DEFAULTS_nonneg_indian :
  nonneg_indian IndianDefaults.INDIAN_DEFAULTS.
Proof.
  split; [exact INDIAN_DEFAULTS_nonneg |]. repeat split; simpl; lra.
Qed.

(** A laptop on the shipped factors of [App.js]. *)
Lemma deviceKg_nonneg_greenLaptop :
  0 <= deviceKg (AppSimple.results greenLaptop AppSimple.DEFAULTS)
  /\ 0 <= deviceKg (AppExtended.results greenLaptop AppSimple.DEFAULTS).
Proof.
  destruct (deviceKg_nonneg greenLaptop) as [H _].
  exact (H AppSimple.DEFAULTS DEFAULTS_nonneg).
Defined.

(** Laptops without hours and a negative number of tablets. *)
Lemma deviceKg_zero_idleDevices :
  no_positive_entry (deviceData idleDevices)
  /\ deviceKg (AppSimple.results idleDevices AppSimple.DEFAULTS) == 0.
Proof.
  assert (H : no_positive_entry (deviceData idleDevices)).
  { unfold no_positive_entry, deviceData.
    repeat (apply List.Forall_cons;
            [first [left; vm_compute; discriminate
                   | right; vm_compute; discriminate] |]).
    apply List.Forall_nil. }
  split; [exact H |].
  destruct (deviceKg_zero_without_positive_entry idleDevices H) as [H1 _].
  exact (H1 AppSimple.DEFAULTS).
Defined.

(** Mostly renewable power and overnight charging: 0.4 * 1.1. *)
Lemma extended_device_amount_greenLaptop :
  0.16 * rawDeviceKg (AppSimple.emissions greenLaptop AppSimple.DEFAULTS)
  <= rawDeviceKg (AppExtended.emissions greenLaptop AppSimple.DEFAULTS)
  <= 1.3 * rawDeviceKg (AppSimple.emissions greenLaptop AppSimple.DEFAULTS).
Proof.
  destruct (extended_device_amount_is_scaled_simple greenLaptop
              AppSimple.DEFAULTS) as (_ & _ & H).
  exact (H DEFAULTS_nonneg).
Defined.

(** Entering three laptops moves neither [dataKg] nor [aiKg]. *)
Lemma categories_independent_laptop :
  dataKg (AppSimple.results (<["laptop" := JStr "3"]> typedNumbers)
            AppSimple.DEFAULTS)
  = dataKg (AppSimple.results typedNumbers AppSimple.DEFAULTS)
  /\ aiKg (AppSimple.results (<["laptop" := JStr "3"]> typedNumbers)
             AppSimple.DEFAULTS)
     = aiKg (AppSimple.results typedNumbers AppSimple.DEFAULTS).
Proof.
  destruct (categories_independent typedNumbers "laptop" (JStr "3"))
    as [H _].
  destruct H as [H _].
  - apply (bool_decide_unpack _). vm_compute. exact I.
  - exact (H AppSimple.DEFAULTS).
Defined.

(** Heavy use with 20 GB of transfers a month. *)
Lemma indian_breakdown_nonneg_heavyUse :
  exists r,
    IndianDefaults.results heavyUse IndianDefaults.INDIAN_DEFAULTS = Ok r
    /\ nonneg_breakdown r.
Proof.
  eexists. split; [vm_compute; reflexivity |].
  refine (proj2 (proj2 (indian_breakdown_nonneg heavyUse
                          IndianDefaults.INDIAN_DEFAULTS _
                          INDIAN_DEFAULTS_nonneg_indian _)) _).
  - vm_compute. reflexivity.
  - vm_compute. discriminate.
Defined.


(** Scenario C lies far below the bound. *)
Lemma indian_aiKg_at_most_scenarioC :
  aiKg (mkBreakdown (0 # 100) (0 # 100) (16 # 100) (16 # 100)) <= 24637.5.
Proof.
  refine (proj1 (indian_aiKg_at_most scenarioC _ _)).
  vm_compute. reflexivity.
Defined.

(** One kilogram against two at the shipped price of [App.js]. *)
Lemma kgToInr_monotone_one_two :
  AppSimple.kgToInr AppSimple.DEFAULTS (JNum (Finite 1))
  <= AppSimple.kgToInr AppSimple.DEFAULTS (JNum (Finite 2)).
Proof.
  destruct kgToInr_monotone as [H _].
  apply (H AppSimple.DEFAULTS 1 2); vm_compute; discriminate.
Defined.

(** Spaces around the city are dropped, and a city made of a
    no-break space is blank. *)
Lemma getCityState_pune :
  getCityState puneForm = Ok "Pune, Maharashtra"%string
  /\ trimmed "Pune, Maharashtra"
  /\ getCityState goaForm = Ok "Goa"%string
  /\ blank (field goaForm "city").
Proof.
  assert (H : getCityState puneForm = Ok "Pune, Maharashtra"%string)
    by (vm_compute; reflexivity).
  split; [exact H |].
  destruct (getCityState_result puneForm) as [_ Hr].
  split; [exact (proj1 (Hr _ H)) |].
  split; vm_compute; reflexivity.
Defined.

(** Two downloads one millisecond apart. *)
Lemma export_identity_one_millisecond_apart :
  exists data name data' name',
    downloadJSON puneForm zeroBreakdown 1700000000000 "" = Ok (data, name)
    /\ downloadJSON puneForm zeroBreakdown 1700000000001 ""
       = Ok (data', name')
    /\ name = "survey_P1700000000000.json"%string
    /\ (name = name' <-> 1700000000000%Z = 1700000000001%Z).
Proof.
  do 4 eexists.
  assert (H : forall now,
             downloadJSON puneForm zeroBreakdown now ""
             = Ok ({| participantId := generateParticipantId now;
                      timestamp := "";
                      exportedForm := puneForm;
                      exportedResults := zeroBreakdown;
                      cityState := "Pune, Maharashtra" |},
                   ("survey_" ++ generateParticipantId now ++ ".json")%string)).
  { intros now. reflexivity. }
  split; [apply H |]. split; [apply H |].
  split; [vm_compute; reflexivity |].
  exact (proj1 (proj2 (export_identity_is_the_clock _ _ _ _ _ _ _ _ _ _ _ _
                         (H 1700000000000%Z) (H 1700000000001%Z)))).
Defined.

(** A consenting respondent and a webhook that answers. *)
Lemma handleSubmit_gate_consenting :
  exists sub,
    AppSubmit.handleSubmit consentingForm zeroBreakdown
      "https://example.org/hook" 1700000000000 "" Resolves = Ok sub
    /\ message sub = Some AppSubmit.successMessage.
Proof.
  eexists. split; [reflexivity |].
  destruct (handleSubmit_gate consentingForm zeroBreakdown
              "https://example.org/hook" 1700000000000 "" Resolves)
    as (_ & H & _).
  destruct (H _ eq_refl) as [_ Hm]; [reflexivity | exact Hm].
Defined.

(** One gigabyte a month against two. *)
Lemma dataKg_monotone_one_two :
  dataKg (AppSimple.results
            (<["largeTransfersPerMonth" := JStr "1"]> typedNumbers)
            AppSimple.DEFAULTS)
  <= dataKg (AppSimple.results
               (<["largeTransfersPerMonth" := JStr "2"]> typedNumbers)
               AppSimple.DEFAULTS).
Proof.
  destruct (dataKg_monotone_in_transfers typedNumbers (JStr "1") (JStr "2"))
    as [H _].
  - vm_compute. discriminate.
  - apply (H AppSimple.DEFAULTS). vm_compute. discriminate.
Defined.

End SamplesMore.
